(** * app.py: the tools of the VLSI design assistant and its chat endpoint

    A shallow embedding of [src/app.py].  The three tool functions
    ([save_code_to_file], [run_verilog_simulation],
    [generate_circuit_diagram]) and the Flask handler [handle_chat] are
    translated statement by statement into a state-and-exception monad.
    Everything outside the program (the file system's refusals, the
    behaviour of spawned processes, the Graphviz engine, the image decoder
    and the remote model) is a field of an explicit [host] or [gateway]
    record, so that every theorem quantifies over all of them.

    Strings are byte strings: a Python [str] is represented by its UTF-8
    encoding.  Standard output is taken to accept every line that the
    program prints: a [print] that raises (a closed stream, a console
    that cannot encode the text) is outside the model, so statements say
    what a call returns once its banner is printed. *)

From stdpp Require Import base strings list gmap pretty.

Local Open Scope string_scope.
Local Open Scope Z_scope.

(** ** Python exceptions *)

(** The exception classes that the program and the libraries it calls can
    raise.  [Exception] is the root (the handlers of the program are
    written against [Exception] and its subclasses). *)
Inductive exn_class :=
| Exception
| OSError
| FileNotFoundError
| PermissionError
| IsADirectoryError
| FileExistsError
| SubprocessError
| CalledProcessError
| TimeoutExpired
| ValueError
| UnicodeError
| UnicodeDecodeError
| RuntimeError
| ExecutableNotFound.

#[global] Instance exn_class_eq_dec : EqDecision exn_class.
Proof. solve_decision. Defined.

(** Method resolution order: the class followed by its base classes.
    [graphviz.ExecutableNotFound] derives from [RuntimeError]. *)
Definition mro (c : exn_class) : list exn_class :=
  match c with
  | Exception => [Exception]
  | OSError => [OSError; Exception]
  | FileNotFoundError => [FileNotFoundError; OSError; Exception]
  | PermissionError => [PermissionError; OSError; Exception]
  | IsADirectoryError => [IsADirectoryError; OSError; Exception]
  | FileExistsError => [FileExistsError; OSError; Exception]
  | SubprocessError => [SubprocessError; Exception]
  | CalledProcessError => [CalledProcessError; SubprocessError; Exception]
  | TimeoutExpired => [TimeoutExpired; SubprocessError; Exception]
  | ValueError => [ValueError; Exception]
  | UnicodeError => [UnicodeError; ValueError; Exception]
  | UnicodeDecodeError => [UnicodeDecodeError; UnicodeError; ValueError; Exception]
  | RuntimeError => [RuntimeError; Exception]
  | ExecutableNotFound => [ExecutableNotFound; RuntimeError; Exception]
  end.

(** An exception object: its class, the text [str(e)] and, for
    [CalledProcessError], the attribute [e.stderr] (empty otherwise). *)
Record exn := MkExn {
  exn_cls : exn_class;
  exn_str : string;
  exn_stderr : string
}.

(** [isinstance e c]: does the clause [except c] catch [e]? *)
Definition isinstance (e : exn) (c : exn_class) : bool :=
  bool_decide (c ∈ mro (exn_cls e)).

(** ** Values returned by the program *)

(** A Python dict with string keys and string values, in insertion order. *)
Definition pydict := list (string * string).

(** The text produced by [json.dumps] on such a dict.  The text is kept as
    the dict it encodes: [json.loads] gives that dict back, keys in the
    order in which they were inserted. *)
Record json_text := Dumps { loads : pydict }.

#[global] Instance json_text_eq_dec : EqDecision json_text.
Proof. solve_decision. Defined.

Definition json_dumps (d : pydict) : json_text := Dumps d.

(** ** The world the tools act on *)

(** What is stored under each path, and the directories.  A path stands
    for itself: two spellings of one place (["./a.v"] and ["a.v"], a link
    and its target) are two keys, so the model says what a path holds
    after it was written under that same spelling and says nothing of its
    other spellings. *)
Record filesystem := MkFs {
  files : gmap string string;
  dirs : gset string
}.

(** The file system once [p] holds the text [t], and once [p] is a
    directory. *)
Definition with_file (p t : string) (f : filesystem) : filesystem :=
  MkFs (<[p := t]> (files f)) (dirs f).

Definition with_dir (p : string) (f : filesystem) : filesystem :=
  MkFs (files f) ({[p]} ∪ dirs f).

(** One call of [subprocess.run]: the argument vector and [timeout=]
    in seconds. *)
Record command := MkCommand {
  argv : list string;
  timeout_s : N
}.

#[global] Instance command_eq_dec : EqDecision command.
Proof. solve_decision. Defined.

Record world := MkWorld {
  fs : filesystem;
  spawned : list command;   (* every subprocess.run call so far, oldest first *)
  console : list string     (* every line printed so far, oldest first *)
}.

Definition set_fs (f : filesystem) (w : world) : world :=
  MkWorld f (spawned w) (console w).

Definition log_spawn (c : command) (w : world) : world :=
  MkWorld (fs w) (spawned w ++ [c]) (console w).

Definition log_print (line : string) (w : world) : world :=
  MkWorld (fs w) (spawned w) (console w ++ [line]).

(** A captured stream of a child process, as [text=True] delivers it: its
    text (decoded with the locale's codec, line ends translated), or the
    [UnicodeDecodeError] that decoding its bytes raises. *)
Inductive capture :=
| Text (s : string)
| Garbled (e : exn).

Coercion Text : string >-> capture.

(** What a child process does once asked to start.  [NotOnPath]: the
    executable is in no directory of the PATH, [search_denied] telling
    whether one of the directories could not be searched.  [CannotStart]:
    starting it fails otherwise (the file is there but may not be
    executed, ...).  [Runs]: [duration_ms] is the wall-clock time it runs
    for ([None]: it never exits on its own); [out] and [err] are its
    captured streams; [fs_exit] is the file system it leaves when it runs
    to its end, [fs_kill] the one it leaves when it is killed at the
    timeout. *)
Inductive proc_behaviour :=
| NotOnPath (search_denied : bool)
| CannotStart (e : exn)
| Runs (duration_ms : option N) (returncode : Z) (out err : capture)
       (fs_exit fs_kill : filesystem).

(** The line end that text-mode writing puts for a newline. *)
Inductive platform := Posix | Windows.

(** The environment of the tools. *)
Record host := MkHost {
  platform_of : platform;
  (* does the place keep what is written to it (a regular file), or not
     (a device such as /dev/null, a pipe)? *)
  keeps : string -> bool;
  (* open(name, 'w') on an existing place: the error raised, if any
     (missing parent directory, permissions, ...) *)
  open_denied : filesystem -> string -> option exn;
  (* f.write(text) and the closing flush: the error raised, if any *)
  write_fault : filesystem -> string -> string -> option exn;
  (* creating a directory that does not exist yet: the error raised, if any *)
  mkdir_denied : filesystem -> string -> option exn;
  (* the behaviour of the executable named by the head of the vector *)
  exec : list string -> filesystem -> proc_behaviour;
  (* the Graphviz engine on a DOT text: the PNG bytes, or the error that
     graphviz raises (ExecutableNotFound, CalledProcessError) *)
  dot_png : string -> exn + string
}.

(** ** The monad: state passing with Python exceptions *)

Inductive outcome (A : Type) :=
| Ret (a : A)
| Raise (e : exn).
Arguments Ret {A} a.
Arguments Raise {A} e.

(** A computation over a state [S] that returns an [A] or raises. *)
Definition M (S A : Type) : Type := S -> outcome A * S.

Definition ret {S A} (a : A) : M S A := fun w => (Ret a, w).

Definition raise {S A} (e : exn) : M S A := fun w => (Raise e, w).

Definition bind {S A B} (m : M S A) (k : A -> M S B) : M S B :=
  fun w =>
    match m w with
    | (Ret a, w') => k a w'
    | (Raise e, w') => (Raise e, w')
    end.

Notation "'let!' x ':=' m 'in' k" := (bind m (fun x => k))
  (at level 10, x name, m at level 99, k at level 200).
Notation "m ';;;' k" := (bind m (fun _ => k))
  (at level 100, k at level 200, right associativity).

(** [try: body except handlers]: [handler e] is [Some k] when one of the
    except clauses catches [e], and then [k] is the body of that clause. *)
Definition try_except {S A} (body : M S A) (handler : exn -> option (M S A))
  : M S A :=
  fun w =>
    match body w with
    | (Ret a, w') => (Ret a, w')
    | (Raise e, w') =>
        match handler e with
        | Some k => k w'
        | None => (Raise e, w')
        end
    end.

(** States that have a standard output. *)
Class Console (S : Type) := put_line : string -> S -> S.

#[global] Instance world_console : Console world := log_print.

(** [print(line)], on a standard output that accepts the line. *)
Definition print {S} `{Console S} (line : string) : M S unit :=
  fun w => (Ret tt, put_line line w).

(** ** The library calls the tools make *)

(** The file system once [p] is written with [t]: the text is kept where
    the host keeps what is written. *)
Definition store (h : host) (p t : string) (f : filesystem) : filesystem :=
  if keeps h p then with_file p t f else f.

Definition lf : Ascii.ascii := Ascii.ascii_of_nat 10.
Definition cr : Ascii.ascii := Ascii.ascii_of_nat 13.

(** Text-mode writing: each newline becomes the line end of the platform. *)
Fixpoint crlf (s : string) : string :=
  match s with
  | EmptyString => EmptyString
  | String c s' =>
      if Ascii.eqb c lf then String cr (String lf (crlf s')) else String c (crlf s')
  end.

Definition newline_out (p : platform) (s : string) : string :=
  match p with
  | Posix => s
  | Windows => crlf s
  end.


(** [open(name, 'w')]: the empty name is never a file; otherwise the host
    may refuse; otherwise the file exists afterwards and is empty. *)
Definition open_w (h : host) (name : string) : M world unit :=
  fun w =>
    if decide (name = "") then
      (Raise (MkExn FileNotFoundError "[Errno 2] No such file or directory: ''" ""), w)
    else
      match open_denied h (fs w) name with
      | Some e => (Raise e, w)
      | None => (Ret tt, set_fs (store h name "" (fs w)) w)
      end.

(** [f.write(text)] on a file just opened for writing, then closing it. *)
Definition write_close (h : host) (name text : string) : M world unit :=
  fun w =>
    match write_fault h (fs w) name text with
    | Some e => (Raise e, w)
    | None =>
        (Ret tt, set_fs (store h name (newline_out (platform_of h) text) (fs w)) w)
    end.

(** Reading a file back: what is stored under the name
    ([open(name, newline='').read()]), and what a text-mode read gives
    ([open(name).read()]); [None] when there is no such file. *)
Definition read_file (w : world) (name : string) : option string :=
  files (fs w) !! name.


(** [os.path.exists(p)] *)
Definition path_exists (f : filesystem) (p : string) : bool :=
  bool_decide (p ∈ dirs f) || bool_decide (is_Some (files f !! p)).

Definition os_path_exists (p : string) : M world bool :=
  fun w => (Ret (path_exists (fs w) p), w).

(** [os.makedirs(p, exist_ok=...)] for a one-component path. *)
Definition os_makedirs (h : host) (p : string) (exist_ok : bool) : M world unit :=
  fun w =>
    if path_exists (fs w) p then
      if exist_ok && bool_decide (p ∈ dirs (fs w)) then (Ret tt, w)
      else (Raise (MkExn FileExistsError ("[Errno 17] File exists: '" ++ p ++ "'") ""), w)
    else
      match mkdir_denied h (fs w) p with
      | Some e => (Raise e, w)
      | None => (Ret tt, set_fs (with_dir p (fs w)) w)
      end.

(** The object returned by [subprocess.run] with [capture_output=True,
    text=True]. *)
Record completed_process := MkCompleted {
  cp_args : list string;
  cp_returncode : Z;
  cp_stdout : string;
  cp_stderr : string
}.

(** Python's [repr] of a list of strings (for arguments without quotes,
    backslashes or control characters). *)
Definition repr_argv (l : list string) : string :=
  "[" ++ String.concat ", " (map (fun a => "'" ++ a ++ "'") l) ++ "]".

(** Does a process that runs for [d] exit before a timeout of [t] seconds? *)
Definition finishes_within (d : option N) (t : N) : bool :=
  match d with
  | Some ms => (ms <=? 1000 * t)%N
  | None => false
  end.

(** What the search of the PATH raises for an executable that is in none
    of its directories: [PermissionError] when one of them could not be
    searched, [FileNotFoundError] otherwise. *)
Definition not_on_path (args : list string) (search_denied : bool) : exn :=
  if search_denied
  then MkExn PermissionError
         ("[Errno 13] Permission denied: '" ++ hd "" args ++ "'") ""
  else MkExn FileNotFoundError
         ("[Errno 2] No such file or directory: '" ++ hd "" args ++ "'") "".

(** What [subprocess.run(args, capture_output=True, text=True,
    check=check, timeout=t)] returns or raises for a child that behaves
    as [b].  A child that cannot be started raises the error of the
    start; a child still running after [t] seconds is killed and
    [TimeoutExpired] raised; the captured streams of a child that exited
    are decoded, standard output first, and a stream that is not valid
    text raises [UnicodeDecodeError]; then, with [check], a non-zero exit
    status raises [CalledProcessError] carrying the captured streams (the
    message is the one of a non-negative status). *)
Definition completes (args : list string) (check : bool) (t : N) (b : proc_behaviour)
  : outcome completed_process :=
  match b with
  | NotOnPath denied => Raise (not_on_path args denied)
  | CannotStart e => Raise e
  | Runs d rc out err _ _ =>
      if finishes_within d t then
        match out, err with
        | Garbled e, _ => Raise e
        | Text _, Garbled e => Raise e
        | Text o, Text e =>
            if check && negb (rc =? 0) then
              Raise (MkExn CalledProcessError
                       ("Command '" ++ repr_argv args
                          ++ "' returned non-zero exit status " ++ pretty rc ++ ".")
                       e)
            else Ret (MkCompleted args rc o e)
        end
      else
        Raise (MkExn TimeoutExpired
                 ("Command '" ++ repr_argv args
                    ++ "' timed out after " ++ pretty t ++ " seconds")
                 "")
  end.

(** The file system that the child leaves behind. *)
Definition leaves (t : N) (b : proc_behaviour) (f : filesystem) : filesystem :=
  match b with
  | Runs d _ _ _ fs_exit fs_kill => if finishes_within d t then fs_exit else fs_kill
  | NotOnPath _ | CannotStart _ => f
  end.

(** [subprocess.run]: the call is recorded, the child does what the host
    says. *)
Definition subprocess_run (h : host) (args : list string) (check : bool) (t : N)
  : M world completed_process :=
  fun w =>
    let b := exec h args (fs w) in
    (completes args check t b, set_fs (leaves t b (fs w)) (log_spawn (MkCommand args t) w)).

(** The text that graphviz saves for a source: the source itself, closed
    by a newline when it is not empty and does not end with one. *)
Fixpoint ends_with_lf (s : string) : bool :=
  match s with
  | EmptyString => false
  | String c EmptyString => Ascii.eqb c lf
  | String _ s' => ends_with_lf s'
  end.

Definition dot_file_text (source : string) : string :=
  if decide (source = "") then ""
  else if ends_with_lf source then source
  else source ++ String lf "".

(** [graphviz.Source(source, filename=, format=, directory=).render()]:
    the directory is created if needed, the DOT text is saved as
    [directory/filename], the engine turns the saved text into
    [directory/filename.format], and that path is returned. *)
Definition Source_render (h : host) (source filename format directory : string)
  : M world string :=
  let filepath := directory ++ "/" ++ filename in
  os_makedirs h directory true ;;;
  open_w h filepath ;;;
  write_close h filepath (dot_file_text source) ;;;
  match dot_png h (dot_file_text source) with
  | inl e => raise e
  | inr png =>
      let rendered := filepath ++ "." ++ format in
      fun w => (Ret rendered, set_fs (with_file rendered png (fs w)) w)
  end.

(** [s.split()]: the maximal runs of characters that are not whitespace.
    [is_space] knows the one-byte whitespace characters; [space_width]
    gives the length in bytes of the whitespace character that a string
    starts with, the one-byte ones and U+0085, U+00A0, U+1680,
    U+2000..U+200A, U+2028, U+2029, U+202F, U+205F, U+3000 in UTF-8, and 0
    when it starts with none. *)
Definition is_space (c : Ascii.ascii) : bool :=
  let n := Ascii.nat_of_ascii c in
  ((9 <=? n)%nat && (n <=? 13)%nat) || ((28 <=? n)%nat && (n <=? 32)%nat).

Definition byte (c : Ascii.ascii) : N := Ascii.N_of_ascii c.

Definition space_width (s : string) : nat :=
  match s with
  | EmptyString => 0%nat
  | String a r =>
      if is_space a then 1%nat
      else
        match r with
        | String b r' =>
            if (byte a =? 194)%N && ((byte b =? 133)%N || (byte b =? 160)%N) then 2%nat
            else
              match r' with
              | String c _ =>
                  if ((byte a =? 225)%N && (byte b =? 154)%N && (byte c =? 128)%N)
                     || ((byte a =? 226)%N && (byte b =? 128)%N
                         && (((128 <=? byte c)%N && (byte c <=? 138)%N)
                             || (byte c =? 168)%N || (byte c =? 169)%N
                             || (byte c =? 175)%N))
                     || ((byte a =? 226)%N && (byte b =? 129)%N && (byte c =? 159)%N)
                     || ((byte a =? 227)%N && (byte b =? 128)%N && (byte c =? 128)%N)
                  then 3%nat else 0%nat
              | EmptyString => 0%nat
              end
        | EmptyString => 0%nat
        end
  end.

(** [skip] counts the bytes still to pass of a whitespace character that
    has been recognised; [cur] is the word read so far. *)
Fixpoint split_from (skip : nat) (cur : string) (s : string) : list string :=
  match s with
  | EmptyString => if decide (cur = "") then [] else [cur]
  | String c s' =>
      match skip with
      | S k => split_from k cur s'
      | O =>
          match space_width s with
          | O => split_from 0 (cur ++ String c "") s'
          | S k =>
              if decide (cur = "") then split_from k "" s'
              else cur :: split_from k "" s'
          end
      end
  end.

Definition py_split (s : string) : list string := split_from 0 "" s.

(** ** The tools (app.py, lines 17-68) *)

Definition save_code_to_file (h : host) (filename code : string) : M world json_text :=
  print ("--- TOOL: Saving code to " ++ filename ++ " ---") ;;;
  try_except
    (open_w h filename ;;;
     write_close h filename code ;;;
     ret (json_dumps [("status", "success");
                      ("message", "File '" ++ filename ++ "' saved successfully.")]))
    (fun e =>
       if isinstance e Exception then
         Some (ret (json_dumps [("error", exn_str e)]))
       else None).

(** The three dicts of the except clauses of [run_verilog_simulation]. *)
Definition toolchain_missing : pydict :=
  [("error", "Icarus Verilog not found. Please ensure it is installed and in your system's PATH.")].

Definition simulation_failed (details : string) : pydict :=
  [("error", "Simulation failed"); ("details", details)].

Definition simulation_timed_out : pydict :=
  [("error", "Simulation timed out. The testbench might have an infinite loop.")].

Definition compile_command (testbench_file : string) (design_files_list : list string)
  : list string :=
  (["iverilog"; "-o"; "simulation_output"; testbench_file] ++ design_files_list)%list.

Definition run_command : list string := ["vvp"; "simulation_output"].

Definition run_verilog_simulation (h : host) (testbench_file design_files : string)
  : M world json_text :=
  print ("--- TOOL: Running simulation for " ++ testbench_file ++ " ---") ;;;
  let design_files_list := py_split design_files in
  try_except
    (subprocess_run h (compile_command testbench_file design_files_list) true 15 ;;;
     let! run_process := subprocess_run h run_command true 15 in
     ret (json_dumps [("simulation_log", cp_stdout run_process)]))
    (fun e =>
       if isinstance e FileNotFoundError then
         Some (ret (json_dumps toolchain_missing))
       else if isinstance e CalledProcessError then
         Some (ret (json_dumps (simulation_failed (exn_stderr e))))
       else if isinstance e TimeoutExpired then
         Some (ret (json_dumps simulation_timed_out))
       else None).

Definition diagram_ok : pydict :=
  [("status", "success"); ("image_path", "/static/circuit.png")].

Definition diagram_banner : string :=
  "--- TOOL: Generating diagram from DOT description ---".

(** The f-string of line 66. *)
Definition diagram_error (e : exn) : string :=
  "Diagram generation failed. Ensure Graphviz software is installed. Error: "
    ++ exn_str e.

Definition generate_circuit_diagram (h : host) (dot_description : string)
  : M world json_text :=
  print diagram_banner ;;;
  try_except
    (let! there := os_path_exists "static" in
     (if negb there then os_makedirs h "static" false else ret tt) ;;;
     Source_render h dot_description "circuit" "png" "static" ;;;
     ret (json_dumps diagram_ok))
    (fun e =>
       if isinstance e Exception then
         Some (let error_message := diagram_error e in
               print ("!!! TOOL ERROR: " ++ error_message ++ " !!!") ;;;
               ret (json_dumps [("error", error_message)]))
       else None).

(** ** The chat endpoint (app.py, lines 96-127) *)

(** A picture decoded by [PIL.Image.open]. *)
Inductive image := Decoded (pixels : string).

(** An element of the [content] list sent to the model. *)
Inductive part :=
| TextPart (s : string)
| ImagePart (i : image).

(** An uploaded file ([werkzeug.FileStorage]): its name and its bytes. *)
Record file_storage := MkUpload {
  upload_filename : string;
  upload_stream : string
}.

(** The two fields the handler reads: [request.form.get("message")] and
    [request.files.get("image")], [None] when the field is absent. *)
Record request := MkRequest {
  form_message : option string;
  files_image : option file_storage
}.

(** What the handler returns: [jsonify(body), status]. *)
Record response := MkResponse {
  body : pydict;
  status : N
}.

#[global] Instance response_eq_dec : EqDecision response.
Proof. solve_decision. Defined.

(** The object returned by [chat.send_message]; its [text] property raises
    when the candidate holds no text. *)
Record reply := MkReply { reply_text : exn + string }.

(** Python truthiness of the two fields: [None] and the empty string are
    false; a [FileStorage] is true when its filename is not empty. *)
Definition truthy_message (m : option string) : bool :=
  match m with
  | Some s => negb (bool_decide (s = ""))
  | None => false
  end.

Definition truthy_upload (f : option file_storage) : bool :=
  match f with
  | Some u => negb (bool_decide (upload_filename u = ""))
  | None => false
  end.

Section Chat.

(** The state of the global [chat] object (its history lives inside). *)
Context {H : Type}.

(** The collaborators of the handler: the image decoder and the remote
    model behind [chat.send_message], which runs the whole tool loop and
    leaves the chat object in a new state. *)
Record gateway := MkGateway {
  image_open : string -> exn + image;
  send_message : list part -> H -> (exn + reply) * H
}.

Record server := MkServer {
  chat : H;
  queries : list (list part);   (* every content sent to the model, oldest first *)
  server_console : list string
}.

#[global] Instance server_console_inst : Console server :=
  fun line s => MkServer (chat s) (queries s) (server_console s ++ [line]).

Definition chat_send_message (g : gateway) (content : list part) : M server reply :=
  fun s =>
    let '(r, c) := send_message g content (chat s) in
    let s' := MkServer c (queries s ++ [content]) (server_console s) in
    match r with
    | inl e => (Raise e, s')
    | inr rep => (Ret rep, s')
    end.

Definition response_text (r : reply) : M server string :=
  match reply_text r with
  | inl e => raise e
  | inr t => ret t
  end.

Definition Image_open (g : gateway) (stream : string) : M server image :=
  match image_open g stream with
  | inl e => raise e
  | inr i => ret i
  end.

(** Lines 113-120: the content list, or the early return of the inner
    except clause. *)
Definition build_content (g : gateway) (req : request)
  : M server (response + list part) :=
  let user_message := form_message req in
  let image_file := files_image req in
  let content : list part := [] in
  let content :=
    if truthy_message user_message
    then (content ++ [TextPart (default "" user_message)])%list
    else content in
  if truthy_upload image_file then
    try_except
      (let! img := Image_open g (default "" (upload_stream <$> image_file)) in
       ret (inr (content ++ [ImagePart img])%list))
      (fun e =>
         if isinstance e Exception then
           Some (ret (inl (MkResponse [("error", "Invalid image file")] 400%N)))
         else None)
  else ret (inr content).

Definition handle_chat (g : gateway) (req : request) : M server response :=
  let user_message := form_message req in
  let image_file := files_image req in
  if negb (truthy_message user_message) && negb (truthy_upload image_file) then
    ret (MkResponse [("error", "No message provided")] 400%N)
  else
    let! c := build_content g req in
    match c with
    | inl early => ret early
    | inr content =>
        try_except
          (let! resp := chat_send_message g content in
           let! t := response_text resp in
           ret (MkResponse [("reply", t)] 200%N))
          (fun e =>
             if isinstance e Exception then
               Some (print ("!!! APP ERROR: " ++ exn_str e ++ " !!!") ;;;
                     ret (MkResponse [("error", "An internal error occurred.")] 500%N))
             else None)
    end.

End Chat.

Arguments gateway : clear implicits.
Arguments server : clear implicits.

(** ** Observations on the host, used to state the properties *)

(** The behaviour of the compile step of a call, and of its run step on
    the file system [f] that the compile step left. *)
Definition compile_step (h : host) (testbench_file design_files : string) (w : world)
  : proc_behaviour :=
  exec h (compile_command testbench_file (py_split design_files)) (fs w).

Definition run_step (h : host) (f : filesystem) : proc_behaviour :=
  exec h run_command f.

(** The process exits on its own within [t] seconds: its exit status. *)
Definition exit_status (b : proc_behaviour) (t : N) : option Z :=
  match b with
  | Runs d rc _ _ _ _ => if finishes_within d t then Some rc else None
  | NotOnPath _ | CannotStart _ => None
  end.

(** The process exits on its own within [t] seconds and both captured
    streams are valid text: its exit status, the two texts and the file
    system it leaves. *)
Definition exits_in_time (b : proc_behaviour) (t : N)
  : option (Z * string * string * filesystem) :=
  match b with
  | Runs d rc (Text out) (Text err) f _ =>
      if finishes_within d t then Some (rc, out, err, f) else None
  | Runs _ _ _ _ _ _ | NotOnPath _ | CannotStart _ => None
  end.

(** The process is still running after [t] seconds. *)
Definition overruns (b : proc_behaviour) (t : N) : bool :=
  match b with
  | Runs d _ _ _ _ _ => negb (finishes_within d t)
  | NotOnPath _ | CannotStart _ => false
  end.

(** The executable is not there: it is in no directory of the PATH.  And
    the case in which, besides, every directory could be searched, so
    that the start raises [FileNotFoundError]. *)
Definition binary_missing (b : proc_behaviour) : bool :=
  match b with
  | NotOnPath _ => true
  | CannotStart _ | Runs _ _ _ _ _ _ => false
  end.

Definition binary_not_found (b : proc_behaviour) : bool :=
  match b with
  | NotOnPath denied => negb denied
  | CannotStart _ | Runs _ _ _ _ _ _ => false
  end.

(** The subprocess calls made between two worlds. *)
Definition spawned_since (w w' : world) : list command :=
  drop (length (spawned w)) (spawned w').

(** Concrete hosts and worlds on which the theorems are exercised. *)
Definition empty_fs : filesystem := MkFs ∅ ∅.

Definition fresh_world : world := MkWorld empty_fs [] [].

(** A POSIX host that refuses nothing and keeps all that is written, in
    which every process is what [procs] says and Graphviz is what [dot]
    says. *)
Definition host_with (procs : list string -> filesystem -> proc_behaviour)
  (dot : string -> exn + string) : host :=
  MkHost Posix (fun _ => true)
    (fun _ _ => None) (fun _ _ _ => None) (fun _ _ => None) procs dot.

Definition artifact_written (f : filesystem) : filesystem :=
  with_file "simulation_output" "vvp-bytecode" f.

(** iverilog and vvp installed; a design that compiles and passes. *)
Definition passing_procs (a : list string) (f : filesystem) : proc_behaviour :=
  match a with
  | "iverilog" :: _ => Runs (Some 120%N) 0 "" "tb.v:3: warning" (artifact_written f) f
  | "vvp" :: _ => Runs (Some 300%N) 0 "ALL TESTS PASSED" "" f f
  | _ => CannotStart (MkExn FileNotFoundError "[Errno 2] No such file or directory" "")
  end.

(** A design with a syntax error: iverilog exits with status 2. *)
Definition syntax_error_procs (a : list string) (f : filesystem) : proc_behaviour :=
  match a with
  | "iverilog" :: _ => Runs (Some 80%N) 2 "" "syntax error" f f
  | "vvp" :: _ => Runs (Some 300%N) 0 "ALL TESTS PASSED" "" f f
  | _ => CannotStart (MkExn FileNotFoundError "[Errno 2] No such file or directory" "")
  end.

(** A design that compiles; vvp exits with status 1. *)
Definition run_error_procs (a : list string) (f : filesystem) : proc_behaviour :=
  match a with
  | "iverilog" :: _ => Runs (Some 120%N) 0 "" "" (artifact_written f) f
  | "vvp" :: _ => Runs (Some 40%N) 1 "" "tb.v:9: assertion failed" f f
  | _ => CannotStart (MkExn FileNotFoundError "[Errno 2] No such file or directory" "")
  end.

(** A design that compiles into an artifact that the simulator cannot
    read: vvp exits with status 2 and the complaint of a failed compile. *)
Definition load_error_procs (a : list string) (f : filesystem) : proc_behaviour :=
  match a with
  | "iverilog" :: _ => Runs (Some 120%N) 0 "" "" (artifact_written f) f
  | "vvp" :: _ => Runs (Some 40%N) 2 "" "syntax error" f f
  | _ => CannotStart (MkExn FileNotFoundError "[Errno 2] No such file or directory" "")
  end.

(** The compiler is killed by the system (exit status -9, nothing on its
    standard error). *)
Definition killed_compile_procs (a : list string) (f : filesystem) : proc_behaviour :=
  match a with
  | "iverilog" :: _ => Runs (Some 900%N) (-9) "" "" f f
  | "vvp" :: _ => Runs (Some 300%N) 0 "ALL TESTS PASSED" "" f f
  | _ => CannotStart (MkExn FileNotFoundError "[Errno 2] No such file or directory" "")
  end.

(** The design compiles and the simulator is killed by the system. *)
Definition killed_run_procs (a : list string) (f : filesystem) : proc_behaviour :=
  match a with
  | "iverilog" :: _ => Runs (Some 120%N) 0 "" "" (artifact_written f) f
  | "vvp" :: _ => Runs (Some 900%N) (-9) "" "" f f
  | _ => CannotStart (MkExn FileNotFoundError "[Errno 2] No such file or directory" "")
  end.

(** A testbench without [$finish]: vvp never exits. *)
Definition looping_procs (a : list string) (f : filesystem) : proc_behaviour :=
  match a with
  | "iverilog" :: _ => Runs (Some 120%N) 0 "" "" (artifact_written f) f
  | "vvp" :: _ => Runs None 0 "" "" f f
  | _ => CannotStart (MkExn FileNotFoundError "[Errno 2] No such file or directory" "")
  end.

(** Icarus Verilog is not installed. *)
Definition no_toolchain_procs (a : list string) (f : filesystem) : proc_behaviour :=
  NotOnPath false.

(** Icarus Verilog is not installed, and one directory of the PATH may
    not be searched by this user. *)
Definition unsearchable_path_procs (a : list string) (f : filesystem) : proc_behaviour :=
  NotOnPath true.

(** What decoding raises at a byte that is not UTF-8. *)
Definition bad_byte : exn :=
  MkExn UnicodeDecodeError
    "'utf-8' codec can't decode byte 0xff in position 0: invalid start byte" "".

(** A design with a syntax error in a file whose name, echoed by the
    compiler on its standard error, is not UTF-8. *)
Definition garbled_compile_procs (a : list string) (f : filesystem) : proc_behaviour :=
  match a with
  | "iverilog" :: _ => Runs (Some 80%N) 2 "" (Garbled bad_byte) f f
  | "vvp" :: _ => Runs (Some 300%N) 0 "ALL TESTS PASSED" "" f f
  | _ => NotOnPath false
  end.

(** A testbench that passes and prints the byte 0xFF. *)
Definition garbled_run_procs (a : list string) (f : filesystem) : proc_behaviour :=
  match a with
  | "iverilog" :: _ => Runs (Some 120%N) 0 "" "" (artifact_written f) f
  | "vvp" :: _ => Runs (Some 300%N) 0 (Garbled bad_byte) "" f f
  | _ => NotOnPath false
  end.

(** iverilog is on the PATH but may not be executed by this user. *)
Definition locked_procs (a : list string) (f : filesystem) : proc_behaviour :=
  CannotStart (MkExn PermissionError "[Errno 13] Permission denied: 'iverilog'" "").

Definition graphviz_installed (d : string) : exn + string := inr ("PNG of " ++ d).

Definition graphviz_absent (d : string) : exn + string :=
  inl (MkExn ExecutableNotFound
         "failed to execute PosixPath('dot'), make sure the Graphviz executables are on your systems' PATH"
         "").

(** ** The results and states the properties speak of *)

(** The success result of [save_code_to_file]. *)
Definition saved_ok (filename : string) : json_text :=
  json_dumps [("status", "success");
              ("message", "File '" ++ filename ++ "' saved successfully.")].

(** A world in which alu.v already exists with other content. *)
Definition stale_world : world :=
  MkWorld (MkFs {["alu.v" := "// old draft"]} ∅) [] [].

(** The three except clauses of [run_verilog_simulation] taken together:
    whether they catch [e], and what the call ends with when [e] is raised
    inside the [try]. *)
Definition simulation_catches (e : exn) : bool :=
  isinstance e FileNotFoundError || isinstance e CalledProcessError
  || isinstance e TimeoutExpired.

Definition after_exception (e : exn) : outcome json_text :=
  if isinstance e FileNotFoundError then Ret (json_dumps toolchain_missing)
  else if isinstance e CalledProcessError
       then Ret (json_dumps (simulation_failed (exn_stderr e)))
  else if isinstance e TimeoutExpired then Ret (json_dumps simulation_timed_out)
  else Raise e.

(** The two [subprocess.run] calls of a simulation. *)
Definition compile_call (testbench_file design_files : string) : command :=
  MkCommand (compile_command testbench_file (py_split design_files)) 15.

Definition run_call : command := MkCommand run_command 15.

Definition compiling (testbench_file design_files : string) (w : world) : world :=
  log_spawn (compile_call testbench_file design_files)
    (log_print ("--- TOOL: Running simulation for " ++ testbench_file ++ " ---") w).

(** The compile step exits on its own with a non-zero status, its output
    is valid text and [err] is its standard error. *)
Definition compile_fails (h : host) (tb ds : string) (w : world) (err : string) : Prop :=
  exists rc out f,
    exits_in_time (compile_step h tb ds w) 15 = Some (rc, out, err, f) /\ rc <> 0.

(** The compile step exits with status zero, its output is valid text and
    it leaves the file system [f]. *)
Definition compile_succeeds (h : host) (tb ds : string) (w : world) (f : filesystem)
  : Prop :=
  exists out err, exits_in_time (compile_step h tb ds w) 15 = Some (0, out, err, f).

(** The compile step succeeds and the run step exits on its own with a
    non-zero status, its output is valid text and [err] is its standard
    error. *)
Definition run_fails (h : host) (tb ds : string) (w : world) (err : string) : Prop :=
  exists f rc out f',
    compile_succeeds h tb ds w f /\
    exits_in_time (run_step h f) 15 = Some (rc, out, err, f') /\ rc <> 0.

(** One of the two steps is still running after 15 seconds. *)
Definition step_overruns (h : host) (tb ds : string) (w : world) : Prop :=
  overruns (compile_step h tb ds w) 15 = true \/
  exists f, compile_succeeds h tb ds w f /\ overruns (run_step h f) 15 = true.

(** The executable of a step that the call reaches is not installed; and
    the case in which its absence shows as [FileNotFoundError]. *)
Definition toolchain_absent (h : host) (tb ds : string) (w : world) : Prop :=
  binary_missing (compile_step h tb ds w) = true \/
  exists f, compile_succeeds h tb ds w f /\ binary_missing (run_step h f) = true.

Definition toolchain_not_found (h : host) (tb ds : string) (w : world) : Prop :=
  binary_not_found (compile_step h tb ds w) = true \/
  exists f, compile_succeeds h tb ds w f /\ binary_not_found (run_step h f) = true.

(** The file system in which the rendering starts: [f], with [static]
    made when nothing of that name was there. *)
Definition with_static (f : filesystem) : filesystem :=
  if path_exists f "static" then f else with_dir "static" f.

(** What the file system answers to a rendering of [d] that starts from
    [f] and gets as far as saving the DOT text: the answer to the open
    and, when the open is not refused, the answer to the write. *)
Definition consulted (h : host) (d : string) (f : filesystem)
  : option exn * option exn :=
  let f0 := with_static f in
  match open_denied h f0 "static/circuit" with
  | Some e => (Some e, None)
  | None =>
      (None,
       write_fault h (store h "static/circuit" "" f0) "static/circuit" (dot_file_text d))
  end.

(** Where the diagram is written, relative to the working directory. *)
Definition diagram_file : string := "static/circuit.png".

(** What [os.makedirs] raises when [static] is a regular file. *)
Definition static_in_the_way : exn :=
  MkExn FileExistsError "[Errno 17] File exists: 'static'" "".

(** The three fixed responses of [handle_chat]. *)
Definition no_message : response := MkResponse [("error", "No message provided")] 400.

Definition invalid_image : response := MkResponse [("error", "Invalid image file")] 400.

Definition internal_error : response :=
  MkResponse [("error", "An internal error occurred.")] 500.

(** A chat object whose state is the list of contents it was sent. *)
Definition fresh_server : server (list (list part)) := MkServer [] [] [].

(** A model that cannot be reached: [send_message] raises. *)
Definition unreachable_model : gateway (list (list part)) :=
  MkGateway
    (fun bytes => inr (Decoded bytes))
    (fun content hist =>
       (inl (MkExn RuntimeError
               "503 The service is currently unavailable (api key AIza...)" ""),
        hist)).

(** A model that answers every message with the same summary. *)
Definition summarising_model : gateway (list (list part)) :=
  MkGateway
    (fun bytes => inr (Decoded bytes))
    (fun content hist =>
       (inr (MkReply (inr "Simulation passed.")), (hist ++ [content])%list)).

(** ** Further observations *)

(** A file name of ASCII characters other than whitespace, not empty. *)
Fixpoint ascii_word (s : string) : bool :=
  match s with
  | EmptyString => true
  | String c s' => (byte c <? 128)%N && negb (is_space c) && ascii_word s'
  end.

Definition ascii_name (a : string) : Prop := a <> "" /\ ascii_word a = true.


(** [" ".join(names)] *)
Definition join_spaces (names : list string) : string := String.concat " " names.

(** The fixed head of the compile command. *)
Definition compile_head (testbench_file : string) : list string :=
  ["iverilog"; "-o"; "simulation_output"; testbench_file].

(** A host on which nothing may be opened for writing. *)
Definition read_only_host : host :=
  MkHost Posix (fun _ => true)
    (fun _ name => Some (MkExn PermissionError
                           ("[Errno 13] Permission denied: '" ++ name ++ "'") ""))
    (fun _ _ _ => None) (fun _ _ => None) passing_procs graphviz_installed.

(** A world in which an earlier call has drawn a diagram. *)
Definition drawn_world : world :=
  MkWorld (MkFs {[diagram_file := "PNG of digraph G { clk -> q }"]} {["static"]}) [] [].

(** The text part of the content list (lines 113-115), and the line that
    the handler prints for an exception (line 126). *)
Definition text_part (req : request) : list part :=
  if truthy_message (form_message req)
  then [TextPart (default "" (form_message req))] else [].

Definition app_error_line (e : exn) : string := "!!! APP ERROR: " ++ exn_str e ++ " !!!".

(** A model behind a decoder that accepts nothing. *)
Definition strict_decoder_model : gateway (list (list part)) :=
  MkGateway
    (fun bytes => inl (MkExn Exception "cannot identify image file" ""))
    (fun content hist =>
       (inr (MkReply (inr "Simulation passed.")), (hist ++ [content])%list)).

(** A host on which /dev/null is the null device. *)
Definition null_device_host : host :=
  MkHost Posix (fun name => negb (bool_decide (name = "/dev/null")))
    (fun _ _ => None) (fun _ _ _ => None) (fun _ _ => None)
    passing_procs graphviz_installed.

(** A host that refuses to open [static/circuit] as long as [static] is
    not a directory. *)
Definition needs_static_host : host :=
  MkHost Posix (fun _ => true)
    (fun f name =>
       if bool_decide (name = "static/circuit") && negb (bool_decide ("static" ∈ dirs f))
       then Some (MkExn FileNotFoundError
                    "[Errno 2] No such file or directory: 'static/circuit'" "")
       else None)
    (fun _ _ _ => None) (fun _ _ => None) passing_procs graphviz_installed.

(** * Properties *)

(** ** Exceptions and handlers *)

(** Every exception of the model derives from [Exception]. *)
Lemma isinstance_Exception (e : exn) : isinstance e Exception = true.
Proof. destruct e as [c m s]; destruct c; reflexivity. Qed.

(** What the except clauses let through is exactly what they do not catch. *)
Lemma after_exception_raises e e' :
  after_exception e = Raise e' <-> e' = e /\ simulation_catches e = false.
Proof.
  unfold after_exception, simulation_catches.
  destruct (isinstance e FileNotFoundError), (isinstance e CalledProcessError),
    (isinstance e TimeoutExpired); cbn; split;
    try discriminate; try (intros [_ ?]; discriminate).
  - intros [= ->]. auto.
  - intros [-> _]. reflexivity.
Qed.


(** ** What [subprocess.run] makes of a child *)

Section Completes.

Variable args : list string.
Variable t : N.

(** A child that exits in time with valid output: the call returns when
    the status is zero and raises [CalledProcessError] with the standard
    error otherwise. *)
Lemma completes_exit (b : proc_behaviour) rc out err f :
  exits_in_time b t = Some (rc, out, err, f) ->
  (forall f0, leaves t b f0 = f) /\
  exit_status b t = Some rc /\
  if decide (rc = 0) then completes args true t b = Ret (MkCompleted args rc out err)
  else exists e, completes args true t b = Raise e /\
                 after_exception e = Ret (json_dumps (simulation_failed err)).
Proof.
  destruct b as [dn | e | d rc' [o | go] [e' | ge] f' k]; cbn; try discriminate.
  destruct (finishes_within d t) eqn:F; [|discriminate].
  intros [= -> -> -> ->]. split; [reflexivity|]. split; [reflexivity|].
  destruct (decide (rc = 0)) as [-> | Hrc]; [reflexivity|].
  apply Z.eqb_neq in Hrc. rewrite Hrc. cbn. eexists. split; reflexivity.
Qed.

Lemma completes_zero (b : proc_behaviour) out err f :
  exits_in_time b t = Some (0, out, err, f) ->
  completes args true t b = Ret (MkCompleted args 0 out err) /\
  forall f0, leaves t b f0 = f.
Proof.
  intros E. destruct (completes_exit b 0 out err f E) as (L & _ & C).
  rewrite decide_True in C by reflexivity. auto.
Qed.

(** Conversely the call returns only for a child that exited in time with
    status zero and valid output. *)
Lemma completes_returns (b : proc_behaviour) p :
  completes args true t b = Ret p ->
  exists f, exits_in_time b t = Some (0, cp_stdout p, cp_stderr p, f).
Proof.
  destruct b as [dn | e | d rc [o | go] [e' | ge] f' k]; cbn; try discriminate.
  - destruct (finishes_within d t); [|discriminate].
    destruct (rc =? 0) eqn:Z; [|discriminate].
    apply Z.eqb_eq in Z as ->. intros [= <-]. eauto.
  - destruct (finishes_within d t); discriminate.
  - destruct (finishes_within d t); discriminate.
  - destruct (finishes_within d t); discriminate.
Qed.

(** A child that exits with a non-zero status never makes the call
    return, whatever its output. *)
Lemma completes_nonzero (b : proc_behaviour) rc :
  exit_status b t = Some rc -> rc <> 0 ->
  exists e, completes args true t b = Raise e.
Proof.
  destruct b as [dn | e | d rc' out err f' k]; cbn; try discriminate.
  destruct (finishes_within d t); [|discriminate]. intros [= ->] Hrc.
  apply Z.eqb_neq in Hrc. rewrite Hrc.
  destruct out, err; cbn; eauto.
Qed.

(** A child still running at the timeout. *)
Lemma completes_overrun (b : proc_behaviour) :
  overruns b t = true ->
  exists e, completes args true t b = Raise e /\
            after_exception e = Ret (json_dumps simulation_timed_out).
Proof.
  destruct b as [dn | e | d rc out err f' k]; cbn; try discriminate.
  intros F%negb_true_iff. rewrite F. eexists. split; reflexivity.
Qed.

(** An executable that is in no directory of a PATH that could be
    searched. *)
Lemma completes_not_found (b : proc_behaviour) :
  binary_not_found b = true ->
  exists e, completes args true t b = Raise e /\
            after_exception e = Ret (json_dumps toolchain_missing).
Proof.
  destruct b as [[] | e | d rc out err f' k]; cbn; try discriminate.
  intros _. eexists. split; reflexivity.
Qed.

End Completes.

(** ** The compile-and-simulate tool *)

(** The whole call, read off the two [subprocess.run] calls. *)
Lemma simulate_eval h tb ds w :
  run_verilog_simulation h tb ds w =
    let b1 := compile_step h tb ds w in
    let w1 := set_fs (leaves 15 b1 (fs w)) (compiling tb ds w) in
    match completes (compile_command tb (py_split ds)) true 15 b1 with
    | Raise e => (after_exception e, w1)
    | Ret _ =>
        let b2 := run_step h (fs w1) in
        let w2 := set_fs (leaves 15 b2 (fs w1)) (log_spawn run_call w1) in
        match completes run_command true 15 b2 with
        | Raise e => (after_exception e, w2)
        | Ret p => (Ret (json_dumps [("simulation_log", cp_stdout p)]), w2)
        end
    end.
Proof.
  unfold run_verilog_simulation, bind, try_except, print, subprocess_run, compile_step,
    run_step, after_exception, ret.
  cbn [fst snd put_line world_console log_print fs]. cbv zeta.
  destruct (completes _ true 15 (exec h (compile_command tb (py_split ds)) (fs w)))
    as [p1 | e1].
  - cbn [set_fs log_spawn fs].
    destruct (completes run_command true 15 _) as [p2 | e2]; [reflexivity|].
    destruct (isinstance e2 FileNotFoundError); [reflexivity|].
    destruct (isinstance e2 CalledProcessError); [reflexivity|].
    destruct (isinstance e2 TimeoutExpired); reflexivity.
  - destruct (isinstance e1 FileNotFoundError); [reflexivity|].
    destruct (isinstance e1 CalledProcessError); [reflexivity|].
    destruct (isinstance e1 TimeoutExpired); reflexivity.
Qed.

Lemma compile_is_not_run (testbench_file design_files : string) :
  argv (compile_call testbench_file design_files) <> run_command.
Proof. discriminate. Qed.

(** A call spawns the compile step, and then the run step when the
    compile step made [subprocess.run] return. *)
Lemma simulate_spawned h tb ds w :
  spawned_since w (snd (run_verilog_simulation h tb ds w)) =
    match completes (compile_command tb (py_split ds)) true 15 (compile_step h tb ds w) with
    | Raise _ => [compile_call tb ds]
    | Ret _ => [compile_call tb ds; run_call]
    end.
Proof.
  rewrite simulate_eval. cbv zeta.
  destruct (completes _ true 15 (compile_step h tb ds w)) as [p1 | e1].
  - destruct (completes run_command true 15 _) as [p2 | e2];
      unfold spawned_since; cbn; rewrite <- app_assoc; apply drop_app_length.
  - unfold spawned_since. cbn. apply drop_app_length.
Qed.

Lemma simulate_spawns h tb ds w :
  let w' := snd (run_verilog_simulation h tb ds w) in
  spawned_since w w' = [compile_call tb ds] \/
  spawned_since w w' = [compile_call tb ds; run_call].
Proof.
  cbv zeta. rewrite simulate_spawned. destruct (completes _ _ _ _); auto.
Qed.

(** The call once the compile step has succeeded. *)
Lemma simulate_compiled h tb ds w f :
  compile_succeeds h tb ds w f ->
  fst (run_verilog_simulation h tb ds w) =
    match completes run_command true 15 (run_step h f) with
    | Raise e => after_exception e
    | Ret p => Ret (json_dumps [("simulation_log", cp_stdout p)])
    end.
Proof.
  intros (out & err & E). rewrite simulate_eval. cbv zeta.
  destruct (completes_zero (compile_command tb (py_split ds)) 15 _ _ _ _ E) as [-> L].
  cbn [set_fs fs]. rewrite L. destruct (completes run_command true 15 _); reflexivity.
Qed.

(** C2, as the code has it.  When the compile step exits with a non-zero
    status, the compile step is the only process spawned: the run step
    ([vvp]) is never invoked.  When moreover its output is valid text, the
    call returns [{"error": "Simulation failed", "details": stderr}] with
    the standard error of the compile step, the result that a failed run
    step gives as well. *)
Theorem compile_failure_skips_run h tb ds w rc :
  exit_status (compile_step h tb ds w) 15 = Some rc -> rc <> 0 ->
  let (r, w') := run_verilog_simulation h tb ds w in
  spawned_since w w' = [compile_call tb ds] /\
  (forall c, c ∈ spawned_since w w' -> argv c <> run_command) /\
  forall err, compile_fails h tb ds w err ->
              r = Ret (json_dumps (simulation_failed err)).
Proof.
  intros Hs Hrc.
  pose proof (simulate_spawned h tb ds w) as Sp.
  pose proof (simulate_eval h tb ds w) as Ev. cbv zeta in Ev.
  destruct (completes_nonzero (compile_command tb (py_split ds)) 15 _ rc Hs Hrc) as [e He].
  rewrite He in Sp, Ev.
  destruct (run_verilog_simulation h tb ds w) as [r w']. cbn [snd] in Sp.
  split; [exact Sp|]. split.
  - intros c Hc. rewrite Sp in Hc. apply list_elem_of_singleton in Hc as ->.
    apply compile_is_not_run.
  - intros err (rc' & out & f & E & Hrc').
    destruct (completes_exit (compile_command tb (py_split ds)) 15 _ _ _ _ _ E)
      as (_ & _ & C).
    rewrite decide_False in C by exact Hrc'. destruct C as (e' & C & A).
    rewrite He in C. injection C as <-. injection Ev as -> _. exact A.
Qed.

Lemma compile_failure_skips_run_witness :
  let h := host_with syntax_error_procs graphviz_installed in
  let (r, w') := run_verilog_simulation h "tb.v" "alu.v  regs.v" fresh_world in
  spawned_since fresh_world w' = [compile_call "tb.v" "alu.v  regs.v"] /\
  (forall c, c ∈ spawned_since fresh_world w' -> argv c <> run_command) /\
  forall err, compile_fails h "tb.v" "alu.v  regs.v" fresh_world err ->
              r = Ret (json_dumps (simulation_failed err)).
Proof.
  apply (compile_failure_skips_run
           (host_with syntax_error_procs graphviz_installed)
           "tb.v" "alu.v  regs.v" fresh_world 2);
    [reflexivity | discriminate].
Defined.

(** C2 as stated fails: the result of a failed compile step names no
    kind of failure.  A compile step and a run step that exit with status
    2 and the same standard error give equal results, so nothing in the
    result says that it was the compile step. *)
Lemma compile_failure_carries_no_kind :
  let h1 := host_with syntax_error_procs graphviz_installed in
  let h2 := host_with load_error_procs graphviz_installed in
  compile_fails h1 "tb.v" "alu.v" fresh_world "syntax error" /\
  compile_succeeds h2 "tb.v" "alu.v" fresh_world (artifact_written empty_fs) /\
  fst (run_verilog_simulation h1 "tb.v" "alu.v" fresh_world)
  = Ret (json_dumps [("error", "Simulation failed"); ("details", "syntax error")]) /\
  fst (run_verilog_simulation h2 "tb.v" "alu.v" fresh_world)
  = fst (run_verilog_simulation h1 "tb.v" "alu.v" fresh_world).
Proof.
  cbv zeta. split; [|split; [|split]].
  - exists 2, "", empty_fs. split; [reflexivity | discriminate].
  - exists "", "". reflexivity.
  - reflexivity.
  - reflexivity.
Qed.

(** Where the standard error of the failed compile step is not valid
    text, [subprocess.run] raises [UnicodeDecodeError] while decoding it
    and the call raises instead of returning a result. *)
Lemma garbled_compile_failure_raises :
  let h := host_with garbled_compile_procs graphviz_installed in
  exit_status (compile_step h "tb.v" "alu.v" fresh_world) 15 = Some 2 /\
  fst (run_verilog_simulation h "tb.v" "alu.v" fresh_world) = Raise bad_byte.
Proof. split; reflexivity. Qed.

(** C3, as the code has it.  A non-zero exit of either step, with output
    that is valid text, gives the same failure result,
    [{"error": "Simulation failed", "details": stderr}] with the standard
    error of the step that failed; nothing in the result records which
    step it was. *)
Theorem failed_step_not_recorded h tb ds w err :
  compile_fails h tb ds w err \/ run_fails h tb ds w err ->
  fst (run_verilog_simulation h tb ds w) = Ret (json_dumps (simulation_failed err)).
Proof.
  intros [(rc & out & f & E & Hrc) | (f & rc & out & f' & C & E & Hrc)].
  - rewrite simulate_eval. cbv zeta.
    destruct (completes_exit (compile_command tb (py_split ds)) 15 _ _ _ _ _ E)
      as (_ & _ & K).
    rewrite decide_False in K by exact Hrc. destruct K as (e & -> & A). exact A.
  - rewrite (simulate_compiled h tb ds w f C).
    destruct (completes_exit run_command 15 _ _ _ _ _ E) as (_ & _ & K).
    rewrite decide_False in K by exact Hrc. destruct K as (e & -> & A). exact A.
Qed.

Lemma failed_step_not_recorded_witness :
  fst (run_verilog_simulation (host_with run_error_procs graphviz_installed)
         "tb.v" "alu.v" fresh_world)
  = Ret (json_dumps (simulation_failed "tb.v:9: assertion failed")).
Proof.
  apply failed_step_not_recorded. right.
  exists (artifact_written empty_fs), 1, "", (artifact_written empty_fs).
  split; [exists "", ""; reflexivity|]. split; [reflexivity | discriminate].
Defined.

(** C3 as stated fails: a compile step and a run step that exit non-zero
    with the same standard error (here both are killed and print nothing)
    give equal results, so no failure kind tells them apart. *)
Lemma failure_kinds_coincide :
  let h1 := host_with killed_compile_procs graphviz_installed in
  let h2 := host_with killed_run_procs graphviz_installed in
  compile_fails h1 "tb.v" "alu.v" fresh_world "" /\
  run_fails h2 "tb.v" "alu.v" fresh_world "" /\
  fst (run_verilog_simulation h1 "tb.v" "alu.v" fresh_world)
  = fst (run_verilog_simulation h2 "tb.v" "alu.v" fresh_world).
Proof.
  cbv zeta. split; [|split].
  - exists (-9), "", empty_fs. split; [reflexivity | discriminate].
  - exists (artifact_written empty_fs), (-9), "", (artifact_written empty_fs).
    split; [exists "", ""; reflexivity|]. split; [reflexivity | discriminate].
  - reflexivity.
Qed.

(** C4. Both [subprocess.run] calls of a simulation are given the timeout
    of 15 seconds, and when a step is still running after 15 seconds the
    call returns the timed-out failure result. *)
Theorem timeout_bounds_both_steps h tb ds w :
  Forall (fun c => timeout_s c = 15%N)
         (spawned_since w (snd (run_verilog_simulation h tb ds w))) /\
  (step_overruns h tb ds w ->
   fst (run_verilog_simulation h tb ds w) = Ret (json_dumps simulation_timed_out)).
Proof.
  split.
  - destruct (simulate_spawns h tb ds w) as [-> | ->]; repeat constructor.
  - intros [O | (f & C & O)].
    + rewrite simulate_eval. cbv zeta.
      destruct (completes_overrun (compile_command tb (py_split ds)) 15 _ O)
        as (e & -> & A). exact A.
    + rewrite (simulate_compiled h tb ds w f C).
      destruct (completes_overrun run_command 15 _ O) as (e & -> & A). exact A.
Qed.

Lemma timeout_bounds_both_steps_witness :
  fst (run_verilog_simulation (host_with looping_procs graphviz_installed)
         "tb.v" "counter.v" fresh_world)
  = Ret (json_dumps simulation_timed_out).
Proof.
  apply (proj2 (timeout_bounds_both_steps
                  (host_with looping_procs graphviz_installed)
                  "tb.v" "counter.v" fresh_world)).
  right. exists (artifact_written empty_fs).
  split; [exists "", ""; reflexivity | reflexivity].
Defined.

(** C5 fails on the code: Icarus Verilog is in no directory of the PATH
    and one of the directories may not be searched; the start raises
    [PermissionError], which none of the except clauses catches, and the
    call raises instead of returning the toolchain-not-found result. *)
Theorem missing_binary_behind_unsearchable_path_raises :
  let h := host_with unsearchable_path_procs graphviz_installed in
  toolchain_absent h "tb.v" "alu.v" fresh_world /\
  fst (run_verilog_simulation h "tb.v" "alu.v" fresh_world)
  = Raise (MkExn PermissionError "[Errno 13] Permission denied: 'iverilog'" "").
Proof. split; [left; reflexivity | reflexivity]. Qed.

(** C8 fails on the code: both steps exit with status zero within the
    timeout, the simulator has printed a byte that is not valid text, and
    the call raises [UnicodeDecodeError] instead of returning the log. *)
Theorem garbled_log_raises :
  let h := host_with garbled_run_procs graphviz_installed in
  exit_status (compile_step h "tb.v" "alu.v" fresh_world) 15 = Some 0 /\
  exit_status (run_step h (artifact_written empty_fs)) 15 = Some 0 /\
  fst (run_verilog_simulation h "tb.v" "alu.v" fresh_world) = Raise bad_byte.
Proof. repeat split; reflexivity. Qed.

(** Once the banner of line 32 is printed, an exception leaves the tool
    only when [subprocess.run] raises it for a step that the call reaches
    and it is none of the three that are caught. *)
Lemma simulation_raises_only_uncaught h tb ds w e :
  fst (run_verilog_simulation h tb ds w) = Raise e ->
  simulation_catches e = false /\
  (completes (compile_command tb (py_split ds)) true 15 (compile_step h tb ds w)
   = Raise e \/
   exists f, compile_succeeds h tb ds w f /\
             completes run_command true 15 (run_step h f) = Raise e).
Proof.
  rewrite simulate_eval. cbv zeta.
  destruct (completes _ true 15 (compile_step h tb ds w)) as [p1 | e1] eqn:C1.
  - destruct (completes_returns _ _ _ _ C1) as [f E].
    assert (Cs : compile_succeeds h tb ds w f) by (eexists _, _; exact E).
    destruct (completes_zero (compile_command tb (py_split ds)) 15 _ _ _ _ E) as [_ L].
    cbn [set_fs fs]. rewrite L.
    destruct (completes run_command true 15 (run_step h f)) as [p2 | e2] eqn:C2;
      cbn [fst]; [discriminate|].
    intros [-> Hc]%after_exception_raises. split; [exact Hc|]. right. eauto.
  - cbn [fst]. intros [-> Hc]%after_exception_raises. auto.
Qed.

(** Conversely, every such error of the compile step leaves the tool. *)
Lemma simulation_leaks_uncaught h tb ds w e :
  compile_step h tb ds w = CannotStart e ->
  simulation_catches e = false ->
  fst (run_verilog_simulation h tb ds w) = Raise e.
Proof.
  intros E Hc. rewrite simulate_eval. cbv zeta. rewrite E. cbn [completes fst].
  apply after_exception_raises. auto.
Qed.

(** C1 fails on [run_verilog_simulation]: an exception that is none of
    [FileNotFoundError], [CalledProcessError], [TimeoutExpired] leaves the
    tool.  Here iverilog is present but may not be executed. *)
Theorem simulation_leaks_PermissionError :
  fst (run_verilog_simulation (host_with locked_procs graphviz_installed)
         "tb.v" "alu.v" fresh_world)
  = Raise (MkExn PermissionError "[Errno 13] Permission denied: 'iverilog'" "").
Proof. reflexivity. Qed.

(** ** How the compile command is built (lines 33 and 35) *)

Lemma string_app_cons (x : Ascii.ascii) (a b : string) :
  String x a ++ b = String x (a ++ b).
Proof. reflexivity. Qed.

Lemma string_app_assoc (a b c : string) : (a ++ b) ++ c = a ++ (b ++ c).
Proof.
  induction a as [|x a IH]; [reflexivity|].
  rewrite !string_app_cons, IH. reflexivity.
Qed.

Lemma string_app_nil_r (a : string) : a ++ "" = a.
Proof.
  induction a as [|x a IH]; [reflexivity|]. rewrite string_app_cons, IH. reflexivity.
Qed.

(** No whitespace character starts with an ASCII character that is not
    itself whitespace. *)
Lemma space_width_ascii (c : Ascii.ascii) (r : string) :
  (byte c <? 128)%N = true -> is_space c = false -> space_width (String c r) = 0%nat.
Proof.
  intros Hc%N.ltb_lt Hs. cbn [space_width]. rewrite Hs.
  assert (E1 : (byte c =? 194)%N = false) by (apply N.eqb_neq; lia).
  assert (E2 : (byte c =? 225)%N = false) by (apply N.eqb_neq; lia).
  assert (E3 : (byte c =? 226)%N = false) by (apply N.eqb_neq; lia).
  assert (E4 : (byte c =? 227)%N = false) by (apply N.eqb_neq; lia).
  destruct r as [|b r]; [reflexivity|]. rewrite E1. cbn [andb].
  destruct r as [|d r]; [reflexivity|]. rewrite E2, E3, E4. reflexivity.
Qed.

Lemma split_from_plain (a cur s : string) :
  ascii_word a = true -> split_from 0 cur (a ++ s) = split_from 0 (cur ++ a) s.
Proof.
  revert cur. induction a as [|x a IH]; intros cur Ha.
  - rewrite string_app_nil_r. reflexivity.
  - cbn [ascii_word] in Ha.
    apply andb_true_iff in Ha as [[Hx Hs]%andb_true_iff Ha].
    apply negb_true_iff in Hs.
    rewrite string_app_cons. cbn [split_from].
    rewrite (space_width_ascii x (a ++ s) Hx Hs), (IH _ Ha), string_app_assoc.
    reflexivity.
Qed.

Lemma split_from_space (cur rest : string) :
  split_from 0 cur (" " ++ rest) =
    if decide (cur = "") then split_from 0 "" rest else cur :: split_from 0 "" rest.
Proof. reflexivity. Qed.

Lemma py_split_join (names : list string) :
  Forall ascii_name names -> py_split (join_spaces names) = names.
Proof.
  unfold py_split, join_spaces. induction 1 as [|a names [Hne Ha] Hn IH]; [reflexivity|].
  destruct names as [|b names].
  - cbn [String.concat]. rewrite <- (string_app_nil_r a) at 1.
    rewrite (split_from_plain a "" "" Ha). change ("" ++ a) with a. cbn [split_from].
    destruct (decide (a = "")); [contradiction | reflexivity].
  - change (String.concat " " (a :: b :: names))
      with (a ++ " " ++ String.concat " " (b :: names)).
    rewrite (split_from_plain a "" _ Ha). change ("" ++ a) with a.
    rewrite split_from_space. destruct (decide (a = "")); [contradiction|].
    rewrite IH. reflexivity.
Qed.

(** X2. A list of design names, each one not empty and made of ASCII
    characters other than whitespace, that is joined with single spaces
    reaches the compiler as that same list, in the same order, after the
    testbench name. *)
Theorem design_names_round_trip h tb names w :
  Forall ascii_name names ->
  exists rest,
    spawned_since w (snd (run_verilog_simulation h tb (join_spaces names) w))
    = MkCommand (compile_head tb ++ names) 15 :: rest.
Proof.
  intros Hn. unfold compile_head.
  destruct (simulate_spawns h tb (join_spaces names) w) as [E | E]; rewrite E;
    unfold compile_call, compile_command; rewrite (py_split_join names Hn); eauto.
Qed.

Lemma design_names_round_trip_witness :
  exists rest,
    spawned_since fresh_world
      (snd (run_verilog_simulation (host_with passing_procs graphviz_installed)
              "tb.v" "alu.v regs.v" fresh_world))
    = MkCommand (compile_head "tb.v" ++ ["alu.v"; "regs.v"]) 15 :: rest.
Proof.
  apply (design_names_round_trip (host_with passing_procs graphviz_installed)
           "tb.v" ["alu.v"; "regs.v"] fresh_world).
  repeat constructor; discriminate.
Defined.

(** ** Which steps a call reaches, and what it returns *)



(** X6. Whatever [subprocess.run] raises for a step that the call reaches,
    other than [FileNotFoundError], [CalledProcessError] and
    [TimeoutExpired], leaves the tool: the error of a start that is
    refused, and the [UnicodeDecodeError] of a child whose output is not
    valid text, whatever its exit status. *)
Theorem uncaught_step_error_leaves h tb ds w e :
  simulation_catches e = false ->
  completes (compile_command tb (py_split ds)) true 15 (compile_step h tb ds w) = Raise e
  \/ (exists f, compile_succeeds h tb ds w f /\
                completes run_command true 15 (run_step h f) = Raise e) ->
  fst (run_verilog_simulation h tb ds w) = Raise e.
Proof.
  intros Hc [C | (f & Cs & C)].
  - rewrite simulate_eval. cbv zeta. rewrite C. cbn [fst].
    apply after_exception_raises. auto.
  - rewrite (simulate_compiled h tb ds w f Cs), C.
    apply after_exception_raises. auto.
Qed.

Lemma uncaught_step_error_leaves_witness :
  fst (run_verilog_simulation (host_with garbled_run_procs graphviz_installed)
         "tb.v" "alu.v" fresh_world)
  = Raise bad_byte.
Proof.
  apply (uncaught_step_error_leaves (host_with garbled_run_procs graphviz_installed)
           "tb.v" "alu.v" fresh_world bad_byte); [reflexivity|].
  right. exists (artifact_written empty_fs).
  split; [exists "", ""; reflexivity | reflexivity].
Defined.

(** X20. When the executable of a step that the call reaches is in no
    directory of the PATH and every directory could be searched, the
    start raises [FileNotFoundError] and the call returns the
    Icarus-Verilog-not-found result, which is none of the
    Simulation-failed results. *)
Theorem unfound_toolchain_reported h tb ds w :
  toolchain_not_found h tb ds w ->
  fst (run_verilog_simulation h tb ds w) = Ret (json_dumps toolchain_missing) /\
  forall details, json_dumps toolchain_missing <> json_dumps (simulation_failed details).
Proof.
  intros Hm. split; [|discriminate].
  destruct Hm as [B | (f & C & B)].
  - rewrite simulate_eval. cbv zeta.
    destruct (completes_not_found (compile_command tb (py_split ds)) 15 _ B)
      as (e & -> & A). exact A.
  - rewrite (simulate_compiled h tb ds w f C).
    destruct (completes_not_found run_command 15 _ B) as (e & -> & A). exact A.
Qed.

Lemma unfound_toolchain_reported_witness :
  fst (run_verilog_simulation (host_with no_toolchain_procs graphviz_installed)
         "tb.v" "alu.v" fresh_world)
  = Ret (json_dumps toolchain_missing).
Proof.
  refine (proj1 (unfound_toolchain_reported
                   (host_with no_toolchain_procs graphviz_installed)
                   "tb.v" "alu.v" fresh_world _)).
  left. reflexivity.
Defined.

(** ** The file-write tool *)




Lemma store_twice h p t t' f : store h p t (store h p t' f) = store h p t f.
Proof.
  unfold store. destruct (keeps h p); [|reflexivity].
  unfold with_file. cbn. f_equal. apply insert_insert_eq.
Qed.

Lemma store_files h p t f :
  files (store h p t f) = if keeps h p then <[p := t]> (files f) else files f.
Proof. unfold store. destruct (keeps h p); reflexivity. Qed.

Lemma store_dirs h p t f : dirs (store h p t f) = dirs f.
Proof. unfold store. destruct (keeps h p); reflexivity. Qed.

(** Every outcome of the tool, with the world it leaves. *)
Lemma save_code_to_file_cases h filename code w :
  let w0 := log_print ("--- TOOL: Saving code to " ++ filename ++ " ---") w in
  save_code_to_file h filename code w =
    if decide (filename = "") then
      (Ret (json_dumps [("error", "[Errno 2] No such file or directory: ''")]), w0)
    else
      match open_denied h (fs w) filename with
      | Some e => (Ret (json_dumps [("error", exn_str e)]), w0)
      | None =>
          match write_fault h (store h filename "" (fs w)) filename code with
          | Some e =>
              (Ret (json_dumps [("error", exn_str e)]),
               set_fs (store h filename "" (fs w)) w0)
          | None =>
              (Ret (saved_ok filename),
               set_fs (store h filename (newline_out (platform_of h) code) (fs w)) w0)
          end
      end.
Proof.
  unfold save_code_to_file, bind, try_except, print, open_w, write_close, ret, saved_ok.
  cbn [fst snd put_line world_console log_print fs].
  destruct (decide (filename = "")) as [-> | Hne]; [reflexivity|].
  destruct (open_denied h (fs w) filename) as [e|].
  - rewrite isinstance_Exception. reflexivity.
  - cbn [set_fs fs]. destruct (write_fault h _ filename code) as [e|].
    + rewrite isinstance_Exception. reflexivity.
    + rewrite store_twice. reflexivity.
Qed.





(** Nor does success alone mean that the code is there: the null device
    takes the write, the tool reports success and nothing is kept. *)
Lemma null_device_keeps_nothing :
  let (r, w') := save_code_to_file null_device_host "/dev/null" "module alu; endmodule"
                   fresh_world in
  r = Ret (saved_ok "/dev/null") /\ read_file w' "/dev/null" = None.
Proof. vm_compute. split; reflexivity. Qed.

(** X9. When the file cannot be opened, the tool returns the text of the
    error under the key [error] and the file system is left exactly as it
    was: a file of that name keeps its old content. *)
Theorem refused_open_keeps_old_content h filename code w e :
  filename <> "" ->
  open_denied h (fs w) filename = Some e ->
  let (r, w') := save_code_to_file h filename code w in
  r = Ret (json_dumps [("error", exn_str e)]) /\ fs w' = fs w.
Proof.
  intros Hne Ho. rewrite save_code_to_file_cases. cbv zeta.
  destruct (decide (filename = "")); [contradiction|]. rewrite Ho. auto.
Qed.

Lemma refused_open_keeps_old_content_witness :
  let (r, w') := save_code_to_file read_only_host "alu.v" "module alu; endmodule"
                   stale_world in
  r = Ret (json_dumps [("error", "[Errno 13] Permission denied: 'alu.v'")]) /\
  fs w' = fs stale_world.
Proof.
  apply (refused_open_keeps_old_content read_only_host "alu.v" "module alu; endmodule"
           stale_world (MkExn PermissionError "[Errno 13] Permission denied: 'alu.v'" ""));
    [discriminate | reflexivity].
Defined.

(** ** The diagram tool *)

Lemma path_exists_dir f p : p ∈ dirs f -> path_exists f p = true.
Proof.
  intros Hp. unfold path_exists. rewrite bool_decide_eq_true_2 by exact Hp. reflexivity.
Qed.

Lemma with_file_twice p t t' f : with_file p t (with_file p t' f) = with_file p t f.
Proof. unfold with_file. cbn. f_equal. apply insert_insert_eq. Qed.

Lemma with_file_swap p q t u f :
  p <> q -> with_file p t (with_file q u f) = with_file q u (with_file p t f).
Proof. intros Hpq. unfold with_file. cbn. f_equal. apply insert_insert_ne. congruence. Qed.

Lemma store_with_file h p q t u f :
  p <> q -> store h p t (with_file q u f) = with_file q u (store h p t f).
Proof.
  intros Hpq. unfold store. destruct (keeps h p); [|reflexivity].
  apply with_file_swap. exact Hpq.
Qed.

Lemma with_static_dir f : "static" ∈ dirs f -> with_static f = f.
Proof. intros Hd. unfold with_static. rewrite (path_exists_dir _ _ Hd). reflexivity. Qed.

(** The rendering, once [static] is a directory. *)
Lemma Source_render_in_dir h d w :
  "static" ∈ dirs (fs w) ->
  Source_render h d "circuit" "png" "static" w =
    match open_denied h (fs w) "static/circuit" with
    | Some e => (Raise e, w)
    | None =>
        let w1 := set_fs (store h "static/circuit" "" (fs w)) w in
        match write_fault h (fs w1) "static/circuit" (dot_file_text d) with
        | Some e => (Raise e, w1)
        | None =>
            let w2 :=
              set_fs (store h "static/circuit"
                        (newline_out (platform_of h) (dot_file_text d)) (fs w)) w in
            match dot_png h (dot_file_text d) with
            | inl e => (Raise e, w2)
            | inr png => (Ret diagram_file, set_fs (with_file diagram_file png (fs w2)) w2)
            end
        end
    end.
Proof.
  intros Hd. unfold Source_render, bind, os_makedirs, open_w, write_close, raise.
  rewrite (path_exists_dir _ _ Hd), (bool_decide_eq_true_2 _ Hd). cbn [andb].
  change ("static" ++ "/" ++ "circuit") with "static/circuit".
  destruct (decide ("static/circuit" = "")) as [H0|_]; [discriminate H0|].
  destruct (open_denied h (fs w) "static/circuit"); [reflexivity|].
  cbv zeta. cbn [fs set_fs].
  destruct (write_fault h _ "static/circuit" (dot_file_text d)); [reflexivity|].
  rewrite store_twice.
  destruct (dot_png h (dot_file_text d)); reflexivity.
Qed.

(** The result and the world left by the tool once the rendering is over. *)
Lemma generate_in_dir h d w :
  "static" ∈ dirs (fs w) ->
  generate_circuit_diagram h d w =
    match Source_render h d "circuit" "png" "static" (log_print diagram_banner w) with
    | (Ret _, w') => (Ret (json_dumps diagram_ok), w')
    | (Raise e, w') =>
        (Ret (json_dumps [("error", diagram_error e)]),
         log_print ("!!! TOOL ERROR: " ++ diagram_error e ++ " !!!") w')
    end.
Proof.
  intros Hd.
  unfold generate_circuit_diagram, bind, try_except, os_path_exists, print, ret.
  cbn [put_line world_console fst snd log_print fs].
  rewrite (path_exists_dir _ _ Hd). cbn [negb].
  change (fs (log_print diagram_banner w)) with (fs w).
  destruct (Source_render h d "circuit" "png" "static" _) as [[p | e] w'];
    [reflexivity|].
  rewrite isinstance_Exception. reflexivity.
Qed.

(** The directory is missing and may be created: the call goes on as if it
    had been there. *)
Lemma generate_creates_dir h d w :
  path_exists (fs w) "static" = false ->
  mkdir_denied h (fs w) "static" = None ->
  generate_circuit_diagram h d w =
    generate_circuit_diagram h d (set_fs (with_dir "static" (fs w)) w).
Proof.
  intros Hp Hm.
  assert (Hd : "static" ∈ dirs (with_dir "static" (fs w))) by (cbn; set_solver).
  unfold generate_circuit_diagram, bind, try_except, os_path_exists, print, ret, os_makedirs.
  cbn [put_line world_console fst snd log_print fs set_fs].
  rewrite Hp, (path_exists_dir _ _ Hd). cbn [negb].
  cbn [put_line world_console log_print fs]. rewrite Hp, Hm. reflexivity.
Qed.

(** The directory is missing and may not be created. *)
Lemma generate_mkdir_denied h d w e :
  path_exists (fs w) "static" = false ->
  mkdir_denied h (fs w) "static" = Some e ->
  generate_circuit_diagram h d w =
    (Ret (json_dumps [("error", diagram_error e)]),
     log_print ("!!! TOOL ERROR: " ++ diagram_error e ++ " !!!")
       (log_print diagram_banner w)).
Proof.
  intros Hp Hm.
  unfold generate_circuit_diagram, bind, try_except, os_path_exists, print, ret, os_makedirs.
  cbn [put_line world_console fst snd log_print fs set_fs].
  rewrite Hp. cbn [negb]. cbn [put_line world_console log_print fs].
  rewrite Hp, Hm. rewrite isinstance_Exception. reflexivity.
Qed.

(** [static] exists and is not a directory. *)
Lemma generate_static_is_file h d w :
  path_exists (fs w) "static" = true ->
  "static" ∉ dirs (fs w) ->
  generate_circuit_diagram h d w =
    (Ret (json_dumps [("error", diagram_error static_in_the_way)]),
     log_print ("!!! TOOL ERROR: " ++ diagram_error static_in_the_way ++ " !!!")
       (log_print diagram_banner w)).
Proof.
  intros Hp Hd.
  unfold generate_circuit_diagram, Source_render, bind, try_except, os_path_exists, print,
    ret, os_makedirs.
  cbn [put_line world_console fst snd log_print fs set_fs].
  rewrite Hp. cbn [negb]. cbn [put_line world_console log_print fs].
  rewrite Hp, (bool_decide_eq_false_2 _ Hd). cbn [negb andb]. reflexivity.
Qed.

(** The whole call from a world in which [static] is a directory. *)
Lemma generate_eval_in_dir h d w :
  "static" ∈ dirs (fs w) ->
  generate_circuit_diagram h d w =
    let w0 := log_print diagram_banner w in
    let failed e v :=
      (Ret (json_dumps [("error", diagram_error e)]),
       log_print ("!!! TOOL ERROR: " ++ diagram_error e ++ " !!!") v) in
    match open_denied h (fs w) "static/circuit" with
    | Some e => failed e w0
    | None =>
        match write_fault h (store h "static/circuit" "" (fs w)) "static/circuit"
                (dot_file_text d) with
        | Some e => failed e (set_fs (store h "static/circuit" "" (fs w)) w0)
        | None =>
            let f2 := store h "static/circuit"
                        (newline_out (platform_of h) (dot_file_text d)) (fs w) in
            match dot_png h (dot_file_text d) with
            | inl e => failed e (set_fs f2 w0)
            | inr png =>
                (Ret (json_dumps diagram_ok), set_fs (with_file diagram_file png f2) w0)
            end
        end
    end.
Proof.
  intros Hd.
  rewrite (generate_in_dir h d w Hd),
    (Source_render_in_dir h d (log_print diagram_banner w) Hd).
  cbn [fs log_print set_fs]. cbv zeta.
  destruct (open_denied h (fs w) "static/circuit"); [reflexivity|].
  cbn [fs set_fs].
  destruct (write_fault h _ "static/circuit" (dot_file_text d)); [reflexivity|].
  destruct (dot_png h (dot_file_text d)); reflexivity.
Qed.

(** Closes a goal [r = r /\ f = f /\ (failure = success -> _)]. *)
Ltac same_failure := split; [reflexivity|]; split; [reflexivity|]; discriminate.

(** With [static] in place, a second call that meets the refusals of the
    first repeats the first. *)
Lemma render_again_in_dir h d w :
  "static" ∈ dirs (fs w) ->
  consulted h d (fs (snd (generate_circuit_diagram h d w))) = consulted h d (fs w) ->
  let (r1, w1) := generate_circuit_diagram h d w in
  let (r2, w2) := generate_circuit_diagram h d w1 in
  r2 = r1 /\ fs w2 = fs w1 /\
  (r1 = Ret (json_dumps diagram_ok) ->
   exists png, dot_png h (dot_file_text d) = inr png /\
               read_file w1 diagram_file = Some png).
Proof.
  intros Hd.
  assert (Cons : forall f, "static" ∈ dirs f ->
            consulted h d f =
              match open_denied h f "static/circuit" with
              | Some e => (Some e, None)
              | None => (None, write_fault h (store h "static/circuit" "" f)
                                 "static/circuit" (dot_file_text d))
              end).
  { intros f Hf. unfold consulted. rewrite (with_static_dir f Hf). reflexivity. }
  rewrite (generate_eval_in_dir h d w Hd). cbv zeta.
  rewrite (Cons (fs w) Hd).
  destruct (open_denied h (fs w) "static/circuit") as [e|] eqn:Eo.
  { cbn [snd fs log_print]. intros Hc.
    rewrite generate_eval_in_dir by exact Hd. cbv zeta. cbn [fs log_print].
    rewrite (Cons (fs w) Hd), Eo in Hc. rewrite Eo. same_failure. }
  destruct (write_fault h (store h "static/circuit" "" (fs w)) "static/circuit"
              (dot_file_text d)) as [e|] eqn:Ew.
  { cbn [snd fs log_print set_fs]. intros Hc.
    assert (Hd1 : "static" ∈ dirs (store h "static/circuit" "" (fs w)))
      by (rewrite store_dirs; exact Hd).
    rewrite (Cons _ Hd1) in Hc.
    rewrite generate_eval_in_dir by exact Hd1. cbv zeta. cbn [fs log_print set_fs].
    destruct (open_denied h (store h "static/circuit" "" (fs w)) "static/circuit");
      [discriminate Hc|].
    rewrite store_twice in Hc |- *. injection Hc as ->. same_failure. }
  destruct (dot_png h (dot_file_text d)) as [e | png] eqn:Ed.
  { cbn [snd fs log_print set_fs]. intros Hc.
    set (f2 := store h "static/circuit"
                 (newline_out (platform_of h) (dot_file_text d)) (fs w)) in *.
    assert (Hd2 : "static" ∈ dirs f2) by (unfold f2; rewrite store_dirs; exact Hd).
    rewrite (Cons _ Hd2) in Hc.
    match goal with |- context [generate_circuit_diagram h d ?W] =>
      rewrite (generate_eval_in_dir h d W Hd2) end. cbv zeta. cbn [fs log_print set_fs].
    destruct (open_denied h f2 "static/circuit"); [discriminate Hc|].
    unfold f2 in Hc |- *. rewrite !store_twice in Hc |- *. injection Hc as ->.
    rewrite Ed. cbn [fs log_print set_fs]. rewrite ?store_twice. same_failure. }
  cbn [snd fs log_print set_fs]. intros Hc.
  set (f2 := store h "static/circuit"
               (newline_out (platform_of h) (dot_file_text d)) (fs w)) in *.
  assert (Hd3 : "static" ∈ dirs (with_file diagram_file png f2))
    by (unfold f2; cbn; rewrite store_dirs; exact Hd).
  rewrite (Cons _ Hd3) in Hc.
  match goal with |- context [generate_circuit_diagram h d ?W] =>
    rewrite (generate_eval_in_dir h d W Hd3) end. cbv zeta. cbn [fs log_print set_fs].
  destruct (open_denied h (with_file diagram_file png f2) "static/circuit");
    [discriminate Hc|].
  assert (S1 : forall t, store h "static/circuit" t (with_file diagram_file png f2)
                         = with_file diagram_file png (store h "static/circuit" t f2))
    by (intros t; apply store_with_file; discriminate).
  rewrite !S1 in Hc |- *. unfold f2 in Hc |- *. rewrite !store_twice in Hc |- *.
  fold f2 in Hc |- *.
  injection Hc as Hc.
  (* the write answer of the second call is the one of the first *)
  assert (Ew2 : write_fault h
                  (with_file diagram_file png (store h "static/circuit" "" (fs w)))
                  "static/circuit" (dot_file_text d) = None)
    by (rewrite Hc; reflexivity).
  rewrite Ew2, Ed. cbn [fs set_fs log_print]. rewrite ?S1. unfold f2.
  rewrite ?store_twice, with_file_twice.
  split; [reflexivity|]. split; [reflexivity|].
  intros _. exists png. split; [reflexivity|]. apply lookup_insert_eq.
Qed.

(** C7, as the code has it.  When the file system answers the second call
    as it answered the first (the same refusal or none for opening and
    for writing [static/circuit]), a second call with the same
    description returns what the first returned and leaves the file
    system as the first left it: the existing directory and the existing
    files are overwritten, never an error.  When the first call
    succeeds, so does the second, both return [/static/circuit.png], and
    after each of them [static/circuit.png] holds the image of the
    description. *)
Theorem render_twice_same_result h d w :
  consulted h d (fs (snd (generate_circuit_diagram h d w))) = consulted h d (fs w) ->
  let (r1, w1) := generate_circuit_diagram h d w in
  let (r2, w2) := generate_circuit_diagram h d w1 in
  r2 = r1 /\ fs w2 = fs w1 /\
  (r1 = Ret (json_dumps diagram_ok) ->
   exists png,
     dot_png h (dot_file_text d) = inr png /\
     read_file w1 diagram_file = Some png /\ read_file w2 diagram_file = Some png).
Proof.
  intros Hc.
  assert (K : let (r1, w1) := generate_circuit_diagram h d w in
              let (r2, w2) := generate_circuit_diagram h d w1 in
              r2 = r1 /\ fs w2 = fs w1 /\
              (r1 = Ret (json_dumps diagram_ok) ->
               exists png, dot_png h (dot_file_text d) = inr png /\
                           read_file w1 diagram_file = Some png)).
  { destruct (path_exists (fs w) "static") eqn:Hp.
    - destruct (decide ("static" ∈ dirs (fs w))) as [Hd | Hd].
      + apply render_again_in_dir; assumption.
      + rewrite (generate_static_is_file h d w Hp Hd).
        match goal with |- context [generate_circuit_diagram h d ?W] =>
          rewrite (generate_static_is_file h d W Hp Hd) end.
        same_failure.
    - destruct (mkdir_denied h (fs w) "static") as [e|] eqn:Hm.
      + rewrite (generate_mkdir_denied h d w e Hp Hm).
        match goal with |- context [generate_circuit_diagram h d ?W] =>
          rewrite (generate_mkdir_denied h d W e Hp Hm) end.
        same_failure.
      + rewrite (generate_creates_dir h d w Hp Hm) in Hc |- *.
        assert (Hd : "static" ∈ dirs (fs (set_fs (with_dir "static" (fs w)) w)))
          by (cbn; set_solver).
        apply render_again_in_dir; [exact Hd|].
        rewrite Hc. unfold consulted. cbn [fs set_fs] in Hd |- *.
        rewrite (with_static_dir _ Hd). unfold with_static. rewrite Hp. reflexivity. }
  destruct (generate_circuit_diagram h d w) as [r1 w1].
  destruct (generate_circuit_diagram h d w1) as [r2 w2].
  destruct K as (K1 & K2 & K3). split; [exact K1|]. split; [exact K2|].
  intros Hr. destruct (K3 Hr) as (png & Hp & Hf). exists png.
  split; [exact Hp|]. split; [exact Hf|].
  unfold read_file in *. rewrite K2. exact Hf.
Qed.

Lemma render_twice_same_result_witness :
  let h := needs_static_host in
  let (r1, w1) := generate_circuit_diagram h "digraph G { a -> y }" fresh_world in
  let (r2, w2) := generate_circuit_diagram h "digraph G { a -> y }" w1 in
  r2 = r1 /\ fs w2 = fs w1 /\
  (r1 = Ret (json_dumps diagram_ok) ->
   exists png,
     dot_png h (dot_file_text "digraph G { a -> y }") = inr png /\
     read_file w1 diagram_file = Some png /\ read_file w2 diagram_file = Some png).
Proof.
  apply (render_twice_same_result needs_static_host "digraph G { a -> y }" fresh_world).
  vm_compute. reflexivity.
Defined.

(** C7 as stated fails: where Graphviz is not installed the call does not
    succeed and no image is produced. *)
Lemma render_without_graphviz_fails :
  let h := host_with passing_procs graphviz_absent in
  let (r1, w1) := generate_circuit_diagram h "digraph G { a -> y }" fresh_world in
  r1 <> Ret (json_dumps diagram_ok) /\ read_file w1 diagram_file = None.
Proof. vm_compute. split; [discriminate | reflexivity]. Qed.

(** A file that the tool does not name reads the same after a [store]. *)
Lemma store_lookup_ne h p q t f :
  p <> q -> files (store h p t f) !! q = files f !! q.
Proof.
  intros Hpq. rewrite store_files. destruct (keeps h p); [|reflexivity].
  apply lookup_insert_ne. exact Hpq.
Qed.

(** Every outcome of the tool, with what it leaves at the image path. *)
Lemma generate_outcome h d w :
  let (r, w') := generate_circuit_diagram h d w in
  (exists png, dot_png h (dot_file_text d) = inr png /\ r = Ret (json_dumps diagram_ok) /\
               "static" ∈ dirs (fs w') /\ read_file w' diagram_file = Some png)
  \/ (exists e, r = Ret (json_dumps [("error", diagram_error e)]) /\
                read_file w' diagram_file = read_file w diagram_file).
Proof.
  assert (In_dir : forall v, "static" ∈ dirs (fs v) ->
            let (r, w') := generate_circuit_diagram h d v in
            (exists png, dot_png h (dot_file_text d) = inr png /\
                         r = Ret (json_dumps diagram_ok) /\
                         "static" ∈ dirs (fs w') /\ read_file w' diagram_file = Some png)
            \/ (exists e, r = Ret (json_dumps [("error", diagram_error e)]) /\
                          read_file w' diagram_file = read_file v diagram_file)).
  { intros v Hv. rewrite (generate_eval_in_dir h d v Hv). cbv zeta.
    destruct (open_denied h (fs v) "static/circuit") as [e|].
    { right. exists e. split; reflexivity. }
    destruct (write_fault h _ "static/circuit" (dot_file_text d)) as [e|].
    { right. exists e. split; [reflexivity|]. unfold read_file. cbn [fs set_fs log_print].
      apply store_lookup_ne. discriminate. }
    destruct (dot_png h (dot_file_text d)) as [e | png].
    { right. exists e. split; [reflexivity|]. unfold read_file. cbn [fs set_fs log_print].
      apply store_lookup_ne. discriminate. }
    left. exists png. split; [reflexivity|]. split; [reflexivity|].
    unfold read_file. cbn [fs set_fs log_print]. split.
    - cbn. rewrite store_dirs. exact Hv.
    - apply lookup_insert_eq. }
  destruct (path_exists (fs w) "static") eqn:Hp.
  - destruct (decide ("static" ∈ dirs (fs w))) as [Hd | Hd].
    + apply In_dir. exact Hd.
    + rewrite (generate_static_is_file h d w Hp Hd).
      right. eexists. split; reflexivity.
  - destruct (mkdir_denied h (fs w) "static") as [e|] eqn:Hm.
    + rewrite (generate_mkdir_denied h d w e Hp Hm).
      right. eexists. split; reflexivity.
    + rewrite (generate_creates_dir h d w Hp Hm).
      assert (Hd : "static" ∈ dirs (fs (set_fs (with_dir "static" (fs w)) w)))
        by (cbn; set_solver).
      specialize (In_dir _ Hd).
      destruct (generate_circuit_diagram h d _) as [r w'].
      exact In_dir.
Qed.

(** X12. A call that fails leaves the image file as it was: an image
    drawn by an earlier call stays in place, and where there was none
    there is none. *)
Theorem failed_render_keeps_old_image h d w message :
  fst (generate_circuit_diagram h d w) = Ret (json_dumps [("error", message)]) ->
  read_file (snd (generate_circuit_diagram h d w)) diagram_file
  = read_file w diagram_file.
Proof.
  pose proof (generate_outcome h d w) as K.
  destruct (generate_circuit_diagram h d w) as [r w']. cbn [fst snd].
  destruct K as [(png & _ & -> & _) | (e & -> & F)]; [discriminate|].
  intros _. exact F.
Qed.

Lemma failed_render_keeps_old_image_witness :
  read_file (snd (generate_circuit_diagram (host_with passing_procs graphviz_absent)
                    "digraph G { a -> y }" drawn_world)) diagram_file
  = read_file drawn_world diagram_file.
Proof.
  apply (failed_render_keeps_old_image (host_with passing_procs graphviz_absent)
           "digraph G { a -> y }" drawn_world
           (diagram_error (MkExn ExecutableNotFound
              "failed to execute PosixPath('dot'), make sure the Graphviz executables are on your systems' PATH"
              ""))).
  reflexivity.
Defined.

(** X13. After a call that succeeds, [static] is a directory and
    [static/circuit.png] holds the image that the engine makes of the DOT
    file as it was saved (the description, closed by a line feed when it
    did not end in one), whatever [static/circuit.png] held before. *)
Theorem successful_render_writes_the_image h d w :
  fst (generate_circuit_diagram h d w) = Ret (json_dumps diagram_ok) ->
  let w' := snd (generate_circuit_diagram h d w) in
  "static" ∈ dirs (fs w') /\
  exists png, dot_png h (dot_file_text d) = inr png /\ read_file w' diagram_file = Some png.
Proof.
  pose proof (generate_outcome h d w) as K.
  destruct (generate_circuit_diagram h d w) as [r w']. cbn [fst snd].
  destruct K as [(png & Hd & -> & Hs & F) | (e & -> & _)]; [|discriminate].
  intros _. cbv zeta. split; [exact Hs|]. exists png. split; [exact Hd | exact F].
Qed.

Lemma successful_render_writes_the_image_witness :
  let h := host_with passing_procs graphviz_installed in
  let w' := snd (generate_circuit_diagram h "digraph G { a -> y }" drawn_world) in
  "static" ∈ dirs (fs w') /\
  exists png, dot_png h (dot_file_text "digraph G { a -> y }") = inr png /\
              read_file w' diagram_file = Some png.
Proof.
  apply (successful_render_writes_the_image
           (host_with passing_procs graphviz_installed)
           "digraph G { a -> y }" drawn_world).
  reflexivity.
Defined.

(** ** The chat endpoint *)

Section ChatProperties.

Context {H : Type}.
Variable g : gateway H.

(** Falsy fields (absent, an empty message, an upload without a name) are
    rejected before anything else happens. *)
Lemma falsy_input_rejected (req : request) (s : server H) :
  truthy_message (form_message req) = false ->
  truthy_upload (files_image req) = false ->
  handle_chat g req s = (Ret no_message, s).
Proof. intros Hm Hi. unfold handle_chat. rewrite Hm, Hi. reflexivity. Qed.

(** An upload that cannot be decoded is rejected, and nothing is sent to
    the model. *)
Lemma undecodable_image_rejected (req : request) (s : server H) u e :
  files_image req = Some u -> upload_filename u <> "" ->
  image_open g (upload_stream u) = inl e ->
  handle_chat g req s = (Ret invalid_image, s).
Proof.
  intros Hu Hn He. unfold handle_chat, build_content, bind, try_except, Image_open.
  rewrite Hu. cbn [truthy_upload]. rewrite (bool_decide_eq_false_2 _ Hn).
  cbn [negb]. rewrite andb_false_r. cbn. rewrite He.
  unfold raise. cbn beta iota. rewrite isinstance_Exception. reflexivity.
Qed.

(** Lines 113-120 in full: the state is never touched. *)
Lemma build_content_cases (req : request) (s : server H) :
  build_content g req s =
    if truthy_upload (files_image req) then
      match image_open g (default "" (upload_stream <$> files_image req)) with
      | inl _ => (Ret (inl invalid_image), s)
      | inr img => (Ret (inr (text_part req ++ [ImagePart img])%list), s)
      end
    else (Ret (inr (text_part req)), s).
Proof.
  unfold build_content, text_part, try_except, bind, Image_open, ret, raise.
  destruct (truthy_upload (files_image req)); [|reflexivity].
  destruct (image_open g _) as [e | img]; [|reflexivity].
  rewrite isinstance_Exception. reflexivity.
Qed.

(** Lines 122-127 in full: the answer and the state once [content] is
    sent. *)
Lemma handle_chat_after_content (req : request) (s : server H) (content : list part) :
  negb (truthy_message (form_message req))
    && negb (truthy_upload (files_image req)) = false ->
  build_content g req s = (Ret (inr content), s) ->
  handle_chat g req s =
    let '(r, c) := send_message g content (chat s) in
    let s' := MkServer c (queries s ++ [content]) (server_console s) in
    match r with
    | inl e => (Ret internal_error, put_line (app_error_line e) s')
    | inr rep =>
        match reply_text rep with
        | inl e => (Ret internal_error, put_line (app_error_line e) s')
        | inr t => (Ret (MkResponse [("reply", t)] 200), s')
        end
    end.
Proof.
  intros V B. unfold handle_chat. rewrite V. unfold bind at 1. rewrite B.
  unfold try_except, bind, chat_send_message, response_text, print, ret, raise,
    app_error_line.
  destruct (send_message g content (chat s)) as [[e | rep] c].
  - rewrite isinstance_Exception. reflexivity.
  - destruct (reply_text rep) as [e | t].
    + rewrite isinstance_Exception. reflexivity.
    + reflexivity.
Qed.

(** Every request ends in one of two ways: it is refused with status 400
    and nothing has changed, or [content] was sent to the model once. *)
Lemma handle_chat_outcome (req : request) (s : server H) :
  (handle_chat g req s = (Ret no_message, s) /\
   truthy_message (form_message req) = false /\
   truthy_upload (files_image req) = false) \/
  (handle_chat g req s = (Ret invalid_image, s) /\
   truthy_upload (files_image req) = true /\
   build_content g req s = (Ret (inl invalid_image), s)) \/
  (exists content,
     (truthy_message (form_message req) = true \/
      truthy_upload (files_image req) = true) /\
     build_content g req s = (Ret (inr content), s) /\
     handle_chat g req s =
       let '(r, c) := send_message g content (chat s) in
       let s' := MkServer c (queries s ++ [content]) (server_console s) in
       match r with
       | inl e => (Ret internal_error, put_line (app_error_line e) s')
       | inr rep =>
           match reply_text rep with
           | inl e => (Ret internal_error, put_line (app_error_line e) s')
           | inr t => (Ret (MkResponse [("reply", t)] 200), s')
           end
       end).
Proof.
  pose proof (build_content_cases req s) as B.
  destruct (truthy_upload (files_image req)) eqn:Tu.
  - destruct (image_open g _) as [e | img].
    + right; left. split; [|split; [reflexivity | exact B]].
      unfold handle_chat. rewrite Tu, andb_false_r. unfold bind. rewrite B. reflexivity.
    + right; right. eexists. split; [auto|]. split; [exact B|].
      apply handle_chat_after_content; [rewrite Tu; apply andb_false_r | exact B].
  - destruct (truthy_message (form_message req)) eqn:Tm.
    + right; right. eexists. split; [auto|]. split; [exact B|].
      apply handle_chat_after_content; [rewrite Tm; reflexivity | exact B].
    + left. split; [apply falsy_input_rejected; assumption | auto].
Qed.

End ChatProperties.




(** C10. A request in which both the message and the image are absent is
    answered with status 400 and "No message provided"; the chat object is
    left as it was and nothing is sent to the model. *)
Theorem absent_input_rejected {H : Type} (g : gateway H) (req : request) (s : server H) :
  form_message req = None -> files_image req = None ->
  let (r, s') := handle_chat g req s in
  r = Ret (MkResponse [("error", "No message provided")] 400) /\
  chat s' = chat s /\ queries s' = queries s.
Proof.
  intros Hm Hi.
  rewrite (falsy_input_rejected g req s) by (rewrite ?Hm, ?Hi; reflexivity).
  auto.
Qed.

Lemma absent_input_rejected_witness :
  let (r, s') := handle_chat summarising_model (MkRequest None None) fresh_server in
  r = Ret (MkResponse [("error", "No message provided")] 400) /\
  chat s' = chat fresh_server /\ queries s' = queries fresh_server.
Proof.
  apply (absent_input_rejected summarising_model (MkRequest None None) fresh_server);
    reflexivity.
Defined.

(** X14. Every response that the handler returns is one of four: "No
    message provided" (400), "Invalid image file" (400), "An internal
    error occurred." (500) or the reply of the model (200); the status is
    200 exactly when the body is a reply. *)
Theorem handle_chat_answers {H : Type} (g : gateway H) (req : request) (s : server H)
    (r : response) :
  fst (handle_chat g req s) = Ret r ->
  (r = no_message \/ r = invalid_image \/ r = internal_error \/
   exists t, r = MkResponse [("reply", t)] 200) /\
  (status r = 200%N <-> exists t, body r = [("reply", t)]).
Proof.
  assert (St : forall r,
            r = no_message \/ r = invalid_image \/ r = internal_error \/
            (exists t, r = MkResponse [("reply", t)] 200) ->
            (r = no_message \/ r = invalid_image \/ r = internal_error \/
             exists t, r = MkResponse [("reply", t)] 200) /\
            (status r = 200%N <-> exists t, body r = [("reply", t)])).
  { intros r0 K. split; [exact K|].
    destruct K as [-> | [-> | [-> | [t ->]]]]; cbn; split;
      try discriminate; try (intros [t [=]]); eauto. }
  destruct (handle_chat_outcome g req s) as [(E & _) | [(E & _) | (content & _ & _ & E)]];
    rewrite E.
  - intros [= <-]. apply St. auto.
  - intros [= <-]. apply St. auto.
  - destruct (send_message g content (chat s)) as [[e | rep] c].
    + intros [= <-]. apply St. auto.
    + destruct (reply_text rep) as [e | t]; intros [= <-]; apply St; eauto 6.
Qed.

Lemma handle_chat_answers_witness :
  let r := MkResponse [("reply", "Simulation passed.")] 200 in
  (r = no_message \/ r = invalid_image \/ r = internal_error \/
   exists t, r = MkResponse [("reply", t)] 200) /\
  (status r = 200%N <-> exists t, body r = [("reply", t)]).
Proof.
  apply (handle_chat_answers summarising_model
           (MkRequest (Some "Simulate the counter") None) fresh_server).
  reflexivity.
Defined.

(** X15. The answer is "No message provided" exactly when the message is
    absent or empty and the upload is absent or has no file name. *)
Theorem no_message_iff_nothing_usable {H : Type} (g : gateway H) (req : request)
    (s : server H) :
  fst (handle_chat g req s) = Ret no_message
  <-> truthy_message (form_message req) = false /\
      truthy_upload (files_image req) = false.
Proof.
  split.
  - destruct (handle_chat_outcome g req s)
      as [(E & Tm & Tu) | [(E & _) | (content & _ & _ & E)]]; rewrite E.
    + auto.
    + discriminate.
    + destruct (send_message g content (chat s)) as [[e | rep] c]; [discriminate|].
      destruct (reply_text rep); discriminate.
  - intros [Tm Tu]. rewrite (falsy_input_rejected g req s Tm Tu). reflexivity.
Qed.

(** X16. An upload that cannot be decoded makes the handler answer
    "Invalid image file" with status 400, also when a message came with
    it; nothing is sent to the model and the chat is left as it was. *)
Theorem undecodable_image_drops_request {H : Type} (g : gateway H) (req : request)
    (s : server H) u e :
  files_image req = Some u -> upload_filename u <> "" ->
  image_open g (upload_stream u) = inl e ->
  let (r, s') := handle_chat g req s in
  r = Ret (MkResponse [("error", "Invalid image file")] 400) /\
  queries s' = queries s /\ chat s' = chat s.
Proof.
  intros Hu Hn He. rewrite (undecodable_image_rejected g req s u e Hu Hn He). auto.
Qed.

Lemma undecodable_image_drops_request_witness :
  let (r, s') := handle_chat strict_decoder_model
                   (MkRequest (Some "What is in this schematic?")
                      (Some (MkUpload "notes.txt" "plain text")))
                   fresh_server in
  r = Ret (MkResponse [("error", "Invalid image file")] 400) /\
  queries s' = queries fresh_server /\ chat s' = chat fresh_server.
Proof.
  apply (undecodable_image_drops_request strict_decoder_model
           (MkRequest (Some "What is in this schematic?")
              (Some (MkUpload "notes.txt" "plain text")))
           fresh_server (MkUpload "notes.txt" "plain text")
           (MkExn Exception "cannot identify image file" ""));
    [reflexivity | discriminate | reflexivity].
Defined.

(** X17. The model is asked at most once per request: a request answered
    with status 400 sends nothing and leaves the chat as it was; every
    other request sends exactly one content list, and the chat is then
    in the state that this one call left. *)
Theorem model_asked_at_most_once {H : Type} (g : gateway H) (req : request)
    (s : server H) :
  let (o, s') := handle_chat g req s in
  exists r,
    o = Ret r /\
    if decide (status r = 400%N)
    then queries s' = queries s /\ chat s' = chat s
    else exists content,
           queries s' = (queries s ++ [content])%list /\
           chat s' = snd (send_message g content (chat s)).
Proof.
  destruct (handle_chat_outcome g req s) as [(E & _) | [(E & _) | (content & _ & _ & E)]];
    rewrite E.
  - exists no_message. split; [reflexivity|]. rewrite decide_True by reflexivity. auto.
  - exists invalid_image. split; [reflexivity|]. rewrite decide_True by reflexivity. auto.
  - destruct (send_message g content (chat s)) as [[e | rep] c] eqn:Es.
    + exists internal_error. split; [reflexivity|].
      rewrite decide_False by discriminate. exists content. rewrite Es. split; reflexivity.
    + destruct (reply_text rep) as [e | t].
      * exists internal_error. split; [reflexivity|].
        rewrite decide_False by discriminate. exists content. rewrite Es. split; reflexivity.
      * eexists. split; [reflexivity|].
        rewrite decide_False by discriminate. exists content. rewrite Es. split; reflexivity.
Qed.

(** X18. When a message and a decodable image come together, the model
    receives the two in one content list, the text first and the image
    second. *)
Theorem text_goes_before_image {H : Type} (g : gateway H) (req : request)
    (s : server H) m u img :
  form_message req = Some m -> m <> "" ->
  files_image req = Some u -> upload_filename u <> "" ->
  image_open g (upload_stream u) = inr img ->
  queries (snd (handle_chat g req s))
  = (queries s ++ [[TextPart m; ImagePart img]])%list.
Proof.
  intros Hm Hne Hu Hn Hi.
  assert (Tm : truthy_message (form_message req) = true).
  { rewrite Hm. cbn. rewrite (bool_decide_eq_false_2 _ Hne). reflexivity. }
  assert (Tu : truthy_upload (files_image req) = true).
  { rewrite Hu. cbn. rewrite (bool_decide_eq_false_2 _ Hn). reflexivity. }
  assert (B : build_content g req s = (Ret (inr [TextPart m; ImagePart img]), s)).
  { rewrite build_content_cases, Tu. unfold text_part. rewrite Tm, Hm, Hu. cbn.
    rewrite Hi. reflexivity. }
  assert (V : negb (truthy_message (form_message req))
              && negb (truthy_upload (files_image req)) = false)
    by (rewrite Tm; reflexivity).
  rewrite (handle_chat_after_content g req s _ V B).
  destruct (send_message g _ (chat s)) as [[e | rep] c]; [reflexivity|].
  destruct (reply_text rep); reflexivity.
Qed.

Lemma text_goes_before_image_witness :
  queries (snd (handle_chat summarising_model
                  (MkRequest (Some "Explain this circuit")
                     (Some (MkUpload "adder.png" "PNG bytes")))
                  fresh_server))
  = (queries fresh_server
       ++ [[TextPart "Explain this circuit"; ImagePart (Decoded "PNG bytes")]])%list.
Proof.
  apply (text_goes_before_image summarising_model
           (MkRequest (Some "Explain this circuit")
              (Some (MkUpload "adder.png" "PNG bytes")))
           fresh_server "Explain this circuit" (MkUpload "adder.png" "PNG bytes")
           (Decoded "PNG bytes"));
    (reflexivity || discriminate).
Defined.

(** X19. When the model call raises, or reading the text of its reply
    raises, and the handler returns a response, the response is the
    fixed internal-error message, which holds nothing of the exception,
    and the last line that the handler has printed is
    [!!! APP ERROR: ... !!!] with the text of that very exception. *)
Theorem exception_text_is_only_logged {H : Type} (g : gateway H) (req : request)
    (s : server H) (content : list part) (e : exn) (r : response) :
  truthy_message (form_message req) || truthy_upload (files_image req) = true ->
  fst (build_content g req s) = Ret (inr content) ->
  (fst (send_message g content (chat s)) = inl e \/
   exists rep, fst (send_message g content (chat s)) = inr rep /\
               reply_text rep = inl e) ->
  fst (handle_chat g req s) = Ret r ->
  r = internal_error /\
  last (server_console (snd (handle_chat g req s)))
  = Some ("!!! APP ERROR: " ++ exn_str e ++ " !!!").
Proof.
  intros V Bc Hs.
  destruct (handle_chat_outcome g req s)
    as [(E & Tm & Tu) | [(E & Tu & B) | (content' & _ & B & E)]].
  - rewrite Tm, Tu in V. discriminate V.
  - rewrite B in Bc. discriminate Bc.
  - rewrite B in Bc. injection Bc as ->. rewrite E.
    destruct (send_message g content (chat s)) as [[e' | rep] c]; cbn [fst] in Hs.
    + destruct Hs as [[= ->] | (rep & [=] & _)]. intros [= <-].
      split; [reflexivity|]. cbn. apply last_snoc.
    + destruct Hs as [[=] | (rep' & [= <-] & Hr)]. rewrite Hr. intros [= <-].
      split; [reflexivity|]. cbn. apply last_snoc.
Qed.

Lemma exception_text_is_only_logged_witness :
  let req := MkRequest (Some "Design a 4-bit counter") None in
  internal_error = internal_error /\
  last (server_console (snd (handle_chat unreachable_model req fresh_server)))
  = Some ("!!! APP ERROR: "
            ++ "503 The service is currently unavailable (api key AIza...)" ++ " !!!").
Proof.
  apply (exception_text_is_only_logged unreachable_model
           (MkRequest (Some "Design a 4-bit counter") None) fresh_server
           [TextPart "Design a 4-bit counter"]
           (MkExn RuntimeError
              "503 The service is currently unavailable (api key AIza...)" "")
           internal_error);
    [reflexivity | reflexivity | left; reflexivity | reflexivity].
Defined.
